(** * extrac-table: the JSON2 table normaliser and the PDF drivers

    A shallow embedding of the Python sources

      - [src/scan_pdf.py]  (module [ScanPdf]):  [parse_json2_tables], the
        defensive tree walk over the body returned by the conversion API;
      - [src/.py]          (module [ConvertAndParse], after the script's own
        usage line): the earlier, unguarded [parse_json2_tables];
      - [src/main.py]      (module [Main]): [is_scanned],
        [extract_tables_digital], [extract_tables_scanned] and
        [process_pdf], with the calls into the PDF, OCR and table
        libraries logged as events.

    Python values that come out of [resp.json()] are modelled by the
    inductive [json]; a [str] is the list of its code points; an [int] is a
    [Z]; a [dict] is an association list in insertion order.  A Python
    exception is a value of [exn] carried by the error monad [result]. *)

From Stdlib Require Import ZArith NArith List String Ascii Bool Lia.
From Stdlib Require Import SpecFloat DecimalString Sorted.
Import ListNotations.

Local Open Scope Z_scope.

(* ===================================================================== *)
(** ** Python strings *)
(* ===================================================================== *)

(** A [str] is a sequence of Unicode code points. *)
Definition pystr : Type := list N.

(** Literals: the code points of an ASCII literal. *)
Definition ustr (s : string) : pystr :=
  List.map N_of_ascii (list_ascii_of_string s).

Definition pystr_eqb (a b : pystr) : bool :=
  if list_eq_dec N.eq_dec a b then true else false.

(** [str.isspace] on one code point (CPython's [_PyUnicode_IsWhitespace]). *)
Definition isspace (c : N) : bool :=
  ((9 <=? c) && (c <=? 13) || (28 <=? c) && (c <=? 32)
   || (c =? 133) || (c =? 160) || (c =? 5760)
   || (8192 <=? c) && (c <=? 8202)
   || (c =? 8232) || (c =? 8233) || (c =? 8239) || (c =? 8287)
   || (c =? 12288))%N.

(** [str.splitlines] boundaries (CPython's [_PyUnicode_IsLinebreak]). *)
Definition islinebreak (c : N) : bool :=
  ((10 <=? c) && (c <=? 13) || (28 <=? c) && (c <=? 30)
   || (c =? 133) || (c =? 8232) || (c =? 8233))%N.

Fixpoint lstrip (s : pystr) : pystr :=
  match s with
  | [] => []
  | c :: s' => if isspace c then lstrip s' else s
  end.

Definition rstrip (s : pystr) : pystr := rev (lstrip (rev s)).

(** [s.strip()] *)
Definition strip (s : pystr) : pystr := rstrip (lstrip s).

(** [s.split()]: maximal runs of non-whitespace; [cur] holds the run being
    read, most recent code point first. *)
Fixpoint split_from (cur : pystr) (s : pystr) : list pystr :=
  match s with
  | [] => match cur with [] => [] | _ => [rev cur] end
  | c :: s' =>
      if isspace c
      then match cur with
           | [] => split_from [] s'
           | _ => rev cur :: split_from [] s'
           end
      else split_from (c :: cur) s'
  end.

Definition split (s : pystr) : list pystr := split_from [] s.

(** [s.splitlines()]: a carriage return followed by a line feed is one
    boundary; no empty last line is produced. *)
Fixpoint splitlines_from (cur : pystr) (s : pystr) : list pystr :=
  match s with
  | [] => match cur with [] => [] | _ => [rev cur] end
  | c :: s' =>
      if islinebreak c
      then rev cur ::
           match s' with
           | c' :: s'' =>
               if ((c =? 13) && (c' =? 10))%N
               then splitlines_from [] s''
               else splitlines_from [] s'
           | [] => splitlines_from [] s'
           end
      else splitlines_from (c :: cur) s'
  end.

Definition splitlines (s : pystr) : list pystr := splitlines_from [] s.

(** [sep.join(parts)] *)
Fixpoint join (sep : pystr) (parts : list pystr) : pystr :=
  match parts with
  | [] => []
  | [p] => p
  | p :: rest => p ++ sep ++ join sep rest
  end.

(** [s.replace(old, new)] for a one-character [old]. *)
Definition replace_char (old : N) (new : pystr) (s : pystr) : pystr :=
  flat_map (fun c => if (c =? old)%N then new else [c]) s.

(** [s.split(sep)] for a one-character [sep]: the pieces between the
    separators, empty pieces included; always at least one piece. *)
Fixpoint split_on_from (sep : N) (cur : pystr) (s : pystr) : list pystr :=
  match s with
  | [] => [rev cur]
  | c :: s' =>
      if (c =? sep)%N then rev cur :: split_on_from sep [] s'
      else split_on_from sep (c :: cur) s'
  end.

Definition split_on (sep : N) (s : pystr) : list pystr :=
  split_on_from sep [] s.

(** [c in s] for a one-character [c]. *)
Definition contains (c : N) (s : pystr) : bool := existsb (N.eqb c) s.

(** The string neither starts nor ends with white space. *)
Definition trimmed (s : pystr) : bool :=
  match s with
  | [] => true
  | c :: _ => negb (isspace c) && negb (isspace (last s c))
  end.

(** [str(n)] for an [int]. *)
Definition repr_int (z : Z) : pystr :=
  ustr (NilZero.string_of_int (Z.to_int z)).

(* ===================================================================== *)
(** ** Exceptions and the error monad *)
(* ===================================================================== *)

Inductive exn : Type :=
| AttributeError      (* [.get] / [.strip] on a value that has none *)
| TypeError           (* iterating or converting a value of the wrong type *)
| ValueError          (* [int] of a string that is no number, or of NaN *)
| OverflowError       (* [int] of an infinite float *)
| IndexError          (* [pages[0]] on the empty list, [mat[0]] *)
| NoValidPages        (* [ValueError("No valid pages to process in ...")] *)
| LibraryError.       (* an error raised by an external library call *)

Inductive result (A : Type) : Type :=
| Ok (a : A)
| Raise (e : exn).
Arguments Ok {A} a.
Arguments Raise {A} e.

Definition bind {A B : Type} (m : result A) (k : A -> result B) : result B :=
  match m with
  | Ok a => k a
  | Raise e => Raise e
  end.

Declare Scope py_scope.
Delimit Scope py_scope with py.
Notation "x <- m ;; k" := (bind m (fun x => k))
  (at level 61, m at next level, right associativity) : py_scope.
Local Open Scope py_scope.

(* ===================================================================== *)
(** ** JSON values as Python objects *)
(* ===================================================================== *)

(** What [json.loads] builds: [None], [bool], [int], [float], [str],
    [list] and [dict] with [str] keys.  A [dict] keeps its entries in
    insertion order; a list of entries that repeats a key is more than
    Python builds, and is read through its first entry for the key.  No
    proof below recurses through a value, so the default (non-nested)
    eliminators are not generated. *)
#[local] Unset Elimination Schemes.
Inductive json : Type :=
| JNull
| JBool (b : bool)
| JInt (z : Z)
| JFloat (f : spec_float)
| JStr (s : pystr)
| JList (l : list json)
| JDict (d : list (pystr * json)).
#[local] Set Elimination Schemes.

(** The entry of a key (the first one, should the list repeat a key). *)
Fixpoint lookup (key : pystr) (d : list (pystr * json)) : option json :=
  match d with
  | [] => None
  | (k, v) :: d' => if pystr_eqb key k then Some v else lookup key d'
  end.

(** [d.get(key, default)] on a [dict]. *)
Definition dict_get (d : list (pystr * json)) (key : pystr) (default : json)
  : json :=
  match lookup key d with
  | Some v => v
  | None => default
  end.

(** [v.get(key, default)] on any value: only a [dict] has [get]. *)
Definition py_get (v : json) (key : pystr) (default : json) : result json :=
  match v with
  | JDict d => Ok (dict_get d key default)
  | _ => Raise AttributeError
  end.

(** The items a [for] loop over [v] visits: the elements of a [list], the
    one-character strings of a [str], the keys of a [dict]; the other
    values are not iterable. *)
Definition py_iter (v : json) : result (list json) :=
  match v with
  | JList l => Ok l
  | JStr s => Ok (List.map (fun c => JStr [c]) s)
  | JDict d => Ok (List.map (fun kv => JStr (fst kv)) d)
  | _ => Raise TypeError
  end.

(** Truth value, as tested by [if not v]. *)
Definition py_truthy (v : json) : bool :=
  match v with
  | JNull => false
  | JBool b => b
  | JInt z => negb (z =? 0)
  | JFloat (S754_zero _) => false
  | JFloat _ => true
  | JStr s => match s with [] => false | _ => true end
  | JList l => match l with [] => false | _ => true end
  | JDict d => match d with [] => false | _ => true end
  end.

(** [int(f)] for a [float]: truncation towards zero. *)
Definition int_of_float (f : spec_float) : result Z :=
  match f with
  | S754_zero _ => Ok 0
  | S754_infinity _ => Raise OverflowError
  | S754_nan => Raise ValueError
  | S754_finite s m e =>
      let a := if 0 <=? e then Z.pos m * 2 ^ e else Z.pos m / 2 ^ (- e) in
      Ok (if s then - a else a)
  end.

(** The parts of the Python runtime that are tables or algorithms of the
    interpreter rather than of this program: reading a number out of a
    string ([None] when [int] raises [ValueError]), and the [repr] of a
    [str] and of a [float]. *)
Class PyBuiltins : Type := {
  int_of_str : pystr -> option Z;
  repr_str : pystr -> pystr;
  repr_float : spec_float -> pystr
}.

Section Builtins.
Context {B : PyBuiltins}.

(** [int(v)] *)
Definition py_int (v : json) : result Z :=
  match v with
  | JInt z => Ok z
  | JBool b => Ok (if b then 1 else 0)
  | JFloat f => int_of_float f
  | JStr s => match int_of_str s with
              | Some z => Ok z
              | None => Raise ValueError
              end
  | JNull | JList _ | JDict _ => Raise TypeError
  end.

(** [repr(v)] *)
Fixpoint py_repr (v : json) : pystr :=
  match v with
  | JNull => ustr "None"
  | JBool true => ustr "True"
  | JBool false => ustr "False"
  | JInt z => repr_int z
  | JFloat f => repr_float f
  | JStr s => repr_str s
  | JList l => ustr "[" ++ join (ustr ", ") (List.map py_repr l) ++ ustr "]"
  | JDict d =>
      ustr "{"
      ++ join (ustr ", ")
           (List.map (fun kv => repr_str (fst kv) ++ ustr ": "
                                ++ py_repr (snd kv)) d)
      ++ ustr "}"
  end.

(** [str(v)]: a [str] is itself, anything else prints as its [repr]. *)
Definition py_str (v : json) : pystr :=
  match v with
  | JStr s => s
  | _ => py_repr v
  end.
End Builtins.

(** One instance, used to run the examples: decimal ASCII numerals with an
    optional sign and surrounding blanks for [int], single quotes around a
    string for [repr], and a finite float written as mantissa and binary
    exponent.  Python's own [int] also reads underscores and the decimal
    digits of other scripts, its [repr] escapes quotes, backslashes and
    unprintable characters and prints a float in shortest decimal form;
    the examples contain none of these, and every general theorem below
    holds for all instances. *)
Module AsciiBuiltins.
Definition digit (c : N) : option Z :=
  if ((48 <=? c) && (c <=? 57))%N then Some (Z.of_N c - 48) else None.

Fixpoint digits (acc : Z) (s : pystr) : option Z :=
  match s with
  | [] => Some acc
  | c :: s' => match digit c with
               | Some d => digits (10 * acc + d) s'
               | None => None
               end
  end.

Definition unsigned (s : pystr) : option Z :=
  match s with
  | [] => None
  | _ => digits 0 s
  end.

Definition read_int (s : pystr) : option Z :=
  match strip s with
  | 43%N :: s' => unsigned s'
  | 45%N :: s' => option_map Z.opp (unsigned s')
  | s' => unsigned s'
  end.

Definition quote (s : pystr) : pystr := ustr "'" ++ s ++ ustr "'".

Definition show_float (f : spec_float) : pystr :=
  match f with
  | S754_zero false => ustr "0.0"
  | S754_zero true => ustr "-0.0"
  | S754_infinity false => ustr "inf"
  | S754_infinity true => ustr "-inf"
  | S754_nan => ustr "nan"
  | S754_finite s m e =>
      (if s then ustr "-" else []) ++ repr_int (Z.pos m)
      ++ ustr "*2**" ++ repr_int e
  end.

Definition builtins : PyBuiltins :=
  {| int_of_str := read_int;
     repr_str := quote;
     repr_float := show_float |}.
End AsciiBuiltins.

(* ===================================================================== *)
(** ** Table records *)
(* ===================================================================== *)

(** The dictionary [{"page": idx, "headers": headers, "rows": data}]. *)
Record table : Type := {
  page : Z;
  headers : list pystr;
  rows : list (list pystr)
}.

(** Dictionary keys used by the normalisers. *)
Definition k_document : pystr := ustr "document".
Definition k_page : pystr := ustr "page".
Definition k_index : pystr := ustr "index".
Definition k_row : pystr := ustr "row".
Definition k_column : pystr := ustr "column".
Definition k_text : pystr := ustr "text".

(* ===================================================================== *)
(** ** src/scan_pdf.py *)
(* ===================================================================== *)

Module ScanPdf.
Section WithBuiltins.
Context {B : PyBuiltins}.

(** Lines 184-187: the string of one cell dictionary. *)
Definition cell_text (c : list (pystr * json)) : pystr :=
  let txt := dict_get c k_text (JStr []) in
  let txt := match txt with
             | JDict t => dict_get t k_text (JStr [])
             | _ => txt
             end in
  strip (py_str txt).

(** Lines 180-187: the loop over the cells of a row; [cols] is the list
    built so far. *)
Fixpoint cells_loop (cells : list json) (cols : list pystr) : list pystr :=
  match cells with
  | [] => cols
  | cell :: rest =>
      match cell with
      | JDict c => cells_loop rest (cols ++ [cell_text c])
      | _ => cells_loop rest cols                       (* continue *)
      end
  end.

(** Lines 176-188: the loop over the rows of a page. *)
Fixpoint rows_loop (rs : list json) (mat : list (list pystr))
  : result (list (list pystr)) :=
  match rs with
  | [] => Ok mat
  | r :: rest =>
      match r with
      | JDict rd =>
          cells <- py_iter (dict_get rd k_column (JList [])) ;;
          rows_loop rest (mat ++ [cells_loop cells []])
      | _ => rows_loop rest mat                         (* continue *)
      end
  end.

(** Lines 165-198: the loop over the page entries. *)
Fixpoint pages_loop (pages : list json) (results : list table)
  : result (list table) :=
  match pages with
  | [] => Ok results
  | pg :: rest =>
      match pg with
      | JDict pd =>
          i <- py_int (dict_get pd k_index (JInt 0)) ;;
          let idx := i + 1 in
          match dict_get pd k_row (JList []) with
          | JList [] => pages_loop rest results         (* not rows *)
          | JList rs =>
              mat <- rows_loop rs [] ;;
              match mat with
              | [] => pages_loop rest results           (* not mat *)
              | hd :: data =>
                  pages_loop rest
                    (results ++ [{| page := idx; headers := hd;
                                    rows := data |}])
              end
          | _ => pages_loop rest results                (* not a list *)
          end
      | _ => pages_loop rest results                    (* not a dict *)
      end
  end.

(** Lines 157-199. *)
Definition parse_json2_tables (body : json) : result (list table) :=
  docs <- py_get body k_document (JDict []) ;;
  pages <- py_get docs k_page (JList []) ;;
  match pages with
  | JList ps => pages_loop ps []
  | JDict _ => pages_loop [pages] []
  | _ => Ok []
  end.
End WithBuiltins.

(** *** The API client and the script (lines 7-115 and 203-245) *)

Definition k_error : pystr := ustr "error".
Definition k_url : pystr := ustr "url".
Definition k_body : pystr := ustr "body".

(** What can end a client function early: the [RuntimeError] the functions
    raise themselves, the [KeyError] of [j["url"]] and [j["body"]], the
    [OSError] of [open], or any other Python exception. *)
Inductive client_exn : Type :=
| RuntimeError
| KeyError
| OSError
| Python (e : exn).

Inductive outcome (A : Type) : Type :=
| Done (a : A)
| Failed (e : client_exn).
Arguments Done {A} a.
Arguments Failed {A} e.

(** One HTTP exchange up to [resp.json()]: [requests.post] or
    [raise_for_status] raised a [RequestException], [resp.json()] raised a
    [JSONDecodeError], or the reply was decoded. *)
Inductive exchange : Type :=
| RequestFailed
| NotJson
| Replied (j : json).

(** The environment of one run of the script. *)
Record world : Type := {
  api_key : bool;                     (* os.getenv("API_KEY") is not empty *)
  path_exists : pystr -> bool;        (* os.path.exists *)
  open_rb : pystr -> bool;            (* open(path, "rb") succeeds *)
  open_wb : pystr -> bool;            (* open(dest, "wb") succeeds *)
  open_w : pystr -> bool;             (* open(out, "w") succeeds *)
  stem : pystr -> pystr;    (* os.path.splitext(os.path.basename(inp))[0] *)
  post_upload : pystr -> exchange;
  post_makesearchable : json -> pystr -> exchange;
  post_json2 : json -> exchange;
  get_ok : json -> bool     (* requests.get(url) and raise_for_status pass *)
}.

(** Requests sent and files written, in order. *)
Inductive call : Type :=
| CallUpload (path : pystr)
| CallMakeSearchable (url : json) (name : pystr)
| CallGet (url : json)
| CallSave (dest : pystr)
| CallJson2 (url : json)
| CallDump (out : pystr) (tables : list table).

Definition run (A : Type) : Type := list call * outcome A.

Definition run_bind {A C : Type} (m : run A) (k : A -> run C) : run C :=
  match m with
  | (tr, Done a) => let (tr', r) := k a in (tr ++ tr', r)
  | (tr, Failed e) => (tr, Failed e)
  end.

Notation "x <~ m ;; k" := (run_bind m (fun x => k))
  (at level 61, m at next level, right associativity) : py_scope.

(** [j[key]] *)
Definition subscript (j : json) (key : pystr) : outcome json :=
  match j with
  | JDict d => match lookup key d with
               | Some v => Done v
               | None => Failed KeyError
               end
  | _ => Failed (Python TypeError)
  end.

(** [if j.get("error"): raise RuntimeError(...)], then [return j[key]]. *)
Definition checked_field (j : json) (key : pystr) : outcome json :=
  match py_get j k_error JNull with
  | Raise e => Failed (Python e)
  | Ok err => if py_truthy err then Failed RuntimeError else subscript j key
  end.

(** Lines 18-42. *)
Definition upload_file (w : world) (path : pystr) : run json :=
  if open_rb w path
  then
    match post_upload w path with
    | Replied j => ([CallUpload path], checked_field j k_url)
    | RequestFailed | NotJson => ([CallUpload path], Failed RuntimeError)
    end
  else ([], Failed RuntimeError).

(** Lines 44-69. *)
Definition make_searchable (w : world) (url : json) (name : pystr)
  : run json :=
  match post_makesearchable w url name with
  | Replied j => ([CallMakeSearchable url name], checked_field j k_url)
  | RequestFailed | NotJson =>
      ([CallMakeSearchable url name], Failed RuntimeError)
  end.

(** Lines 72-88. *)
Definition download_file (w : world) (url : json) (dest : pystr) : run unit :=
  if get_ok w url
  then
    if open_wb w dest then ([CallGet url; CallSave dest], Done tt)
    else ([CallGet url], Failed RuntimeError)
  else ([CallGet url], Failed RuntimeError).

(** Lines 91-115. *)
Definition extract_to_json2 (w : world) (url : json) : run json :=
  match post_json2 w url with
  | Replied j => ([CallJson2 url], checked_field j k_body)
  | RequestFailed | NotJson => ([CallJson2 url], Failed RuntimeError)
  end.

(** How the script ends: [sys.exit(code)], the end of [main], or an
    exception nobody catches. *)
Inductive termination : Type :=
| Exited (code : Z)
| Returned
| Crashed (e : client_exn).

Definition parsed_tables_json : pystr := ustr "parsed_tables.json".

Section Script.
Context {B : PyBuiltins}.

(** Lines 214-237: the body of the [try]. *)
Definition pipeline (w : world) (inp : pystr) : run unit :=
  up_url <~ upload_file w inp ;;
  let searchable_name := stem w inp ++ ustr "_searchable.pdf" in
  searchable_url <~ make_searchable w up_url searchable_name ;;
  _ <~ download_file w searchable_url searchable_name ;;
  body <~ extract_to_json2 w searchable_url ;;
  tables <~ ([], match parse_json2_tables body with
                  | Ok ts => Done ts
                  | Raise e => Failed (Python e)
                  end) ;;
  if open_w w parsed_tables_json
  then ([CallDump parsed_tables_json tables], Done tt)
  else ([], Failed OSError).

(** Lines 203-241. *)
Definition main (w : world) (argv : list pystr) : list call * termination :=
  match argv with
  | [_; inp] =>
      if path_exists w inp
      then
        match pipeline w inp with
        | (tr, Done _) => (tr, Returned)
        | (tr, Failed RuntimeError) => (tr, Exited 1)
        | (tr, Failed e) => (tr, Crashed e)
        end
      else ([], Exited 1)
  | _ => ([], Exited 1)
  end.

(** Lines 7-14 and 244-245: the module body run as a script. *)
Definition script (w : world) (argv : list pystr) : list call * termination :=
  if api_key w then main w argv else ([], Exited 1).
End Script.
End ScanPdf.

(* ===================================================================== *)
(** ** src/.py: the earlier normaliser, without the type guards *)
(* ===================================================================== *)

Module ConvertAndParse.
Section WithBuiltins.
Context {B : PyBuiltins}.

(** [txt.strip()]: only a [str] has [strip]. *)
Definition py_strip (v : json) : result pystr :=
  match v with
  | JStr s => Ok (strip s)
  | _ => Raise AttributeError
  end.

(** Lines 77-82. *)
Fixpoint cells_loop (cells : list json) (cols : list pystr)
  : result (list pystr) :=
  match cells with
  | [] => Ok cols
  | cell :: rest =>
      txt <- py_get cell k_text (JStr []) ;;
      txt <- match txt with
             | JDict t => Ok (dict_get t k_text (JStr []))
             | _ => Ok txt
             end ;;
      s <- py_strip txt ;;
      cells_loop rest (cols ++ [s])
  end.

(** Lines 75-83. *)
Fixpoint rows_loop (rs : list json) (mat : list (list pystr))
  : result (list (list pystr)) :=
  match rs with
  | [] => Ok mat
  | r :: rest =>
      column <- py_get r k_column (JList []) ;;
      cells <- py_iter column ;;
      cols <- cells_loop cells [] ;;
      rows_loop rest (mat ++ [cols])
  end.

(** Lines 68-91. *)
Fixpoint pages_loop (pages : list json) (results : list table)
  : result (list table) :=
  match pages with
  | [] => Ok results
  | pg :: rest =>
      index <- py_get pg k_index (JInt 0) ;;
      i <- py_int index ;;
      let idx := i + 1 in
      rws <- py_get pg k_row (JList []) ;;
      if negb (py_truthy rws) then pages_loop rest results
      else
        rs <- py_iter rws ;;
        mat <- rows_loop rs [] ;;
        match mat with
        | [] => Raise IndexError                        (* mat[0] *)
        | hd :: data =>
            pages_loop rest
              (results ++ [{| page := idx; headers := hd; rows := data |}])
        end
  end.

(** Lines 63-92. *)
Definition parse_json2_tables (body : json) : result (list table) :=
  docs <- py_get body k_document (JDict []) ;;
  pages <- py_get docs k_page JNull ;;
  let pages := match pages with
               | JDict _ => JList [pages]
               | _ => pages
               end in
  ps <- py_iter pages ;;
  pages_loop ps [].
End WithBuiltins.
End ConvertAndParse.

(* ===================================================================== *)
(** ** src/main.py *)
(* ===================================================================== *)

Module Main.

(** A table found by [camelot.read_pdf]: its page, its [df] as a grid of
    cell strings and its [parsing_report]. *)
Record camelot_table : Type := {
  tbl_page : Z;
  tbl_df : list (list pystr);
  tbl_parsing_report : json
}.

(** The dictionary appended by [extract_tables_digital] (keys [page],
    [headers], [raw_rows], [processed_rows], [metadata]). *)
Record digital_table : Type := {
  dig_page : Z;
  dig_headers : pystr;
  dig_raw_rows : list (list pystr);
  dig_processed_rows : list (list pystr);
  dig_metadata : json
}.

Inductive ocr_method : Type := PaddleOCR | Tesseract.

(** The dictionary appended by [extract_tables_scanned] (keys [page],
    [title], [headers], [rows], [metadata]). *)
Record scanned_table : Type := {
  ocr_page : Z;
  ocr_title : pystr;
  ocr_headers : list pystr;
  ocr_rows : list (list pystr);
  ocr_metadata : ocr_method
}.

Inductive tables : Type :=
| Scanned (ts : list scanned_table)
| Digital (ts : list digital_table).

(** What [ocr.ocr(arr, cls=True)] returned: [None] when it is not a list,
    otherwise its blocks; a block is [None] when it is falsy, otherwise
    the recognised text [line[1][0]] of each of its lines. *)
Definition ocr_data : Type := option (list (option (list pystr))).

(** The external collaborators of one run on one PDF file: the document
    opened by [fitz], the two OCR engines, [camelot], and the code that
    writes the output file (lines 148-163). *)
Record env : Type := {
  page_count : Z;
  get_text : Z -> result pystr;   (* doc.load_page(n).get_text("text") *)
  paddle : Z -> ocr_data;         (* OCR of the pixmap of load_page(n) *)
  image_to_string : Z -> pystr;   (* pytesseract on the same pixmap *)
  read_pdf_lattice : list Z -> list camelot_table;
  read_pdf_stream : list Z -> list camelot_table;
  write_output : pystr -> tables -> result pystr
}.

(** Calls into the libraries, in the order they are made. *)
Inductive event : Type :=
| EvMkdtemp
| EvRmtree
| EvGetText (page_no : Z)          (* classification, in [is_scanned] *)
| EvPaddle (page_no : Z)           (* extraction, OCR path *)
| EvTesseract (page_no : Z)
| EvLattice (pages : list Z)       (* extraction, digital path *)
| EvStream (pages : list Z)
| EvWrite.

(** Classification or table extraction, as opposed to housekeeping. *)
Definition extraction_work (ev : event) : bool :=
  match ev with
  | EvMkdtemp | EvRmtree | EvWrite => false
  | _ => true
  end.

(** A computation that logs its library calls and may raise. *)
Definition io (A : Type) : Type := list event * result A.

Definition ret {A : Type} (a : A) : io A := ([], Ok a).

Definition raise {A : Type} (e : exn) : io A := ([], Raise e).

Definition call {A : Type} (ev : event) (r : result A) : io A := ([ev], r).

Definition io_bind {A C : Type} (m : io A) (k : A -> io C) : io C :=
  match m with
  | (tr, Ok a) => let (tr', r) := k a in (tr ++ tr', r)
  | (tr, Raise e) => (tr, Raise e)
  end.

(** [try: body finally: cleanup] *)
Definition finally {A : Type} (body : io A) (cleanup : event) : io A :=
  (fst body ++ [cleanup], snd body).

Notation "x <-- m ;; k" := (io_bind m (fun x => k))
  (at level 61, m at next level, right associativity) : py_scope.

(** Lines 15-18 (defined by the script, called nowhere). *)
Definition validate_pages (e : env) (pages : list Z) : list Z :=
  filter (fun p => (1 <=? p) && (p <=? page_count e)) pages.

(** Lines 33-37. *)
Definition is_scanned (e : env) (page_no : Z) : io bool :=
  text <-- call (EvGetText page_no) (get_text e page_no) ;;
  ret (Z.of_nat (List.length (strip text)) <? 20).

(** [df.empty]: no row, or no column. *)
Definition df_empty (df : list (list pystr)) : bool :=
  match df with
  | [] => true
  | [] :: _ => true
  | _ => false
  end.

(** Line 70. *)
Definition clean_header (header : pystr) : pystr :=
  replace_char 44 [] (replace_char 10 [32%N] (strip header)).

(** Lines 59-79. *)
Fixpoint digital_loop (cts : list camelot_table) (acc : list digital_table)
  : list digital_table :=
  match cts with
  | [] => acc
  | tbl :: rest =>
      let df := tbl_df tbl in
      if df_empty df then digital_loop rest acc
      else
        let hs := List.map clean_header (hd [] df) in
        let raw_rows := tl df in
        digital_loop rest
          (acc ++ [{| dig_page := tbl_page tbl;
                      dig_headers := join (ustr ",") hs;
                      dig_raw_rows := raw_rows;
                      dig_processed_rows := raw_rows;
                      dig_metadata := tbl_parsing_report tbl |}])
  end.

(** Lines 40-81. *)
Definition extract_tables_digital (e : env) (pages : list Z)
  : io (list digital_table) :=
  let total_pages := page_count e in
  let pages := filter (fun p => (1 <=? p) && (p <=? total_pages)) pages in
  match pages with
  | [] => raise NoValidPages
  | _ =>
      camelot_tables <-- call (EvLattice pages) (Ok (read_pdf_lattice e pages)) ;;
      camelot_tables <--
        match camelot_tables with
        | [] => call (EvStream pages) (Ok (read_pdf_stream e pages))
        | _ => ret camelot_tables
        end ;;
      ret (digital_loop camelot_tables [])
  end.

(** Lines 97-105: the non-empty stripped texts of the OCR result. *)
Definition paddle_lines (d : ocr_data) : list pystr :=
  match d with
  | None => []
  | Some blocks =>
      flat_map
        (fun block =>
           match block with
           | None => []
           | Some ls =>
               filter (fun t => negb (pystr_eqb t [])) (List.map strip ls)
           end)
        blocks
  end.

(** Line 111. *)
Definition tesseract_lines (text : pystr) : list pystr :=
  List.map strip
    (filter (fun ln => negb (pystr_eqb (strip ln) [])) (splitlines text)).

(** Lines 113-128: the record built from the lines of page [p]. *)
Definition structure (p : Z) (lines : list pystr) (d : ocr_data)
  : scanned_table :=
  let rows_all := List.map split lines in
  let hs := match rows_all with [] => [] | r :: _ => r end in
  let data_rows := if (1 <? Z.of_nat (List.length rows_all)) then tl rows_all
                   else [] in
  let hs := List.map strip hs in
  let data_rows := List.map (fun row => firstn (List.length hs) row) data_rows in
  let title := match lines with [] => [] | l :: _ => l end in
  {| ocr_page := p;
     ocr_title := title;
     ocr_headers := hs;
     ocr_rows := data_rows;
     ocr_metadata :=
       match lines, d with
       | _ :: _, Some _ => PaddleOCR
       | _, _ => Tesseract
       end |}.

(** Lines 88-128. *)
Fixpoint scanned_loop (e : env) (pages : list Z) (acc : list scanned_table)
  : io (list scanned_table) :=
  match pages with
  | [] => ret acc
  | p :: rest =>
      if (p <? 1) || (page_count e <? p) then scanned_loop e rest acc
      else
        d <-- call (EvPaddle (p - 1)) (Ok (paddle e (p - 1))) ;;
        lines <--
          match paddle_lines d with
          | [] =>
              text <-- call (EvTesseract (p - 1))
                         (Ok (image_to_string e (p - 1))) ;;
              ret (tesseract_lines text)
          | ls => ret ls
          end ;;
        scanned_loop e rest (acc ++ [structure p lines d])
  end.

(** Lines 84-130. *)
Definition extract_tables_scanned (e : env) (pages : list Z)
  : io (list scanned_table) :=
  scanned_loop e pages [].

(** Lines 136-165. *)
Definition process_pdf (e : env) (pages : list Z) (output_format : pystr)
  : io pystr :=
  _ <-- call EvMkdtemp (Ok tt) ;;
  finally
    (p0 <-- match pages with
            | [] => raise IndexError                     (* pages[0] *)
            | p :: _ => ret p
            end ;;
     scanned <-- is_scanned e (p0 - 1) ;;
     ts <-- (if scanned : bool
             then (ts <-- extract_tables_scanned e pages ;; ret (Scanned ts))
             else (ts <-- extract_tables_digital e pages ;; ret (Digital ts))) ;;
     _ <-- match pages with
           | [] => raise NoValidPages                    (* not pages *)
           | _ => ret tt
           end ;;
     call EvWrite (write_output e output_format ts))
    EvRmtree.

(** [range(a, b)] *)
Definition py_range (a b : Z) : list Z :=
  List.map (fun i => a + Z.of_nat i) (seq 0 (Z.to_nat (b - a))).

(** A [set] of integers: its elements, each once. *)
Definition set_add (x : Z) (s : list Z) : list Z :=
  if existsb (Z.eqb x) s then s else s ++ [x].

(** [s.update(xs)] *)
Definition set_update (xs : list Z) (s : list Z) : list Z :=
  fold_left (fun acc x => set_add x acc) xs s.

Fixpoint insert_sorted (x : Z) (l : list Z) : list Z :=
  match l with
  | [] => [x]
  | y :: l' => if x <=? y then x :: l else y :: insert_sorted x l'
  end.

(** [sorted(s)] *)
Definition sorted (s : list Z) : list Z := fold_right insert_sorted [] s.

Section Pages.
Context {B : PyBuiltins}.

(** Lines 23-29: the loop over the comma-separated parts; [pages] is the
    set built so far.  [start, end = map(int, part.split('-'))] raises
    [ValueError] when a number does not read and when there are more than
    two pieces. *)
Fixpoint parts_loop (parts : list pystr) (pages : list Z)
  : result (list Z) :=
  match parts with
  | [] => Ok pages
  | part :: rest =>
      let part := strip part in
      if contains 45 part
      then
        match split_on 45 part with
        | [a; b] =>
            start <- py_int (JStr a) ;;
            stop <- py_int (JStr b) ;;
            parts_loop rest (set_update (py_range start (stop + 1)) pages)
        | _ => Raise ValueError
        end
      else
        p <- py_int (JStr part) ;;
        parts_loop rest (set_add p pages)
  end.

(** Lines 21-30. *)
Definition parse_pages (pages_str : pystr) : result (list Z) :=
  pages <- parts_loop (split_on 44 pages_str) [] ;;
  Ok (sorted pages).
End Pages.

End Main.

(* ===================================================================== *)
(** ** Shapes of the input and sample inputs *)
(* ===================================================================== *)

(** [d[key] = v] on a [dict]. *)
Fixpoint dict_set (key : pystr) (v : json) (d : list (pystr * json))
  : list (pystr * json) :=
  match d with
  | [] => [(key, v)]
  | (k, x) :: d' =>
      if pystr_eqb key k then (k, v) :: d' else (k, x) :: dict_set key v d'
  end.

(** The page entries the loop of [ScanPdf.parse_json2_tables] runs over
    (lines 157-163): the list under [document.page], a single mapping
    wrapped into a list, and nothing for any other value. *)
Definition page_entries (body : json) : list json :=
  match body with
  | JDict bd =>
      match dict_get bd k_document (JDict []) with
      | JDict docs =>
          match dict_get docs k_page (JList []) with
          | JList ps => ps
          | JDict m => [JDict m]
          | _ => []
          end
      | _ => []
      end
  | _ => []
  end.

(** The PageTree schema: [text] is a string or a mapping with a string
    [text]; a cell is a mapping with such a [text]; a row is a mapping whose
    [column] is a list of cells; a page entry is a mapping with an integer
    [index] and a list [row] of rows; the body holds a list of page entries
    under [document.page]. *)
Definition wf_text (v : json) : bool :=
  match v with
  | JStr _ => true
  | JDict t => match lookup k_text t with Some (JStr _) => true | _ => false end
  | _ => false
  end.

Definition wf_cell (c : json) : bool :=
  match c with
  | JDict cd => match lookup k_text cd with Some v => wf_text v | None => false end
  | _ => false
  end.

Definition wf_row (r : json) : bool :=
  match r with
  | JDict rd =>
      match lookup k_column rd with
      | Some (JList cells) => forallb wf_cell cells
      | _ => false
      end
  | _ => false
  end.

Definition wf_page (p : json) : bool :=
  match p with
  | JDict pd =>
      match lookup k_index pd, lookup k_row pd with
      | Some (JInt _), Some (JList rs) => forallb wf_row rs
      | _, _ => false
      end
  | _ => false
  end.

Definition well_formed (body : json) : bool :=
  match body with
  | JDict bd =>
      match lookup k_document bd with
      | Some (JDict docs) =>
          match lookup k_page docs with
          | Some (JList ps) => forallb wf_page ps
          | _ => false
          end
      | _ => false
      end
  | _ => false
  end.

(** The [index] and the [row] list of a page entry of the schema. *)
Definition entry_index (p : json) : Z :=
  match p with
  | JDict pd => match lookup k_index pd with Some (JInt i) => i | _ => 0 end
  | _ => 0
  end.

Definition entry_rows (p : json) : list json :=
  match p with
  | JDict pd => match lookup k_row pd with Some (JList rs) => rs | _ => [] end
  | _ => []
  end.

Definition has_rows (p : json) : bool :=
  match entry_rows p with [] => false | _ => true end.

(** The string of a cell of the schema, the strings of a row, and the
    record of a page entry that has rows. *)
Definition wf_cell_string (c : json) : pystr :=
  match c with
  | JDict cd =>
      match dict_get cd k_text (JStr []) with
      | JStr s => strip s
      | JDict t => match dict_get t k_text (JStr []) with
                   | JStr s => strip s
                   | _ => []
                   end
      | _ => []
      end
  | _ => []
  end.

Definition wf_row_strings (r : json) : list pystr :=
  match r with
  | JDict rd =>
      match lookup k_column rd with
      | Some (JList cells) => List.map wf_cell_string cells
      | _ => []
      end
  | _ => []
  end.

Definition wf_record (p : json) : table :=
  let mat := List.map wf_row_strings (entry_rows p) in
  {| page := entry_index p + 1; headers := hd [] mat; rows := tl mat |}.

Section IndexShape.
Context {B : PyBuiltins}.

(** The entry's [index] is absent or converts to an integer that is not
    negative (an entry that is no mapping is skipped, and one whose
    [index] does not convert makes the function raise). *)
Definition index_nonneg (pg : json) : bool :=
  match pg with
  | JDict pd =>
      match py_int (dict_get pd k_index (JInt 0)) with
      | Ok i => 0 <=? i
      | Raise _ => true
      end
  | _ => true
  end.

(** The entry's [index] is absent or converts to an integer. *)
Definition index_converts (pd : list (pystr * json)) : bool :=
  match py_int (dict_get pd k_index (JInt 0)) with
  | Ok _ => true
  | Raise _ => false
  end.

(** The two places the function reads without a guard: the [column] of a
    row mapping must be something a [for] loop accepts, and the [index] of
    a page mapping something [int] accepts. *)
Definition column_iterable (r : json) : bool :=
  match r with
  | JDict rd =>
      match py_iter (dict_get rd k_column (JList [])) with
      | Ok _ => true
      | Raise _ => false
      end
  | _ => true
  end.

Definition entry_readable (pg : json) : bool :=
  match pg with
  | JDict pd =>
      index_converts pd
      && match dict_get pd k_row (JList []) with
         | JList rs => forallb column_iterable rs
         | _ => true
         end
  | _ => true
  end.

Definition document_is_mapping (bd : list (pystr * json)) : bool :=
  match dict_get bd k_document (JDict []) with
  | JDict _ => true
  | _ => false
  end.
End IndexShape.

Module Samples.

Definition cell (txt : json) : json := JDict [(k_text, txt)].
Definition row (cells : json) : json := JDict [(k_column, cells)].
Definition entry (i : json) (rs : json) : json :=
  JDict [(k_index, i); (k_row, rs)].
Definition body (pages : json) : json :=
  JDict [(k_document, JDict [(k_page, pages)])].

(** The example of the specification: a bare page mapping with the header
    row A, B and the data row 1, 2, the 1 nested one level. *)
Definition example_page : list (pystr * json) :=
  [(k_index, JInt 0);
   (k_row,
    JList [row (JList [cell (JStr (ustr "A")); cell (JStr (ustr "B"))]);
           row (JList [cell (JDict [(k_text, JStr (ustr "1"))]);
                       cell (JStr (ustr "2"))])])].

Definition example_document : list (pystr * json) :=
  [(k_page, JDict example_page)].

Definition example_body : list (pystr * json) :=
  [(k_document, JDict example_document)].

Definition spec_example : json := JDict example_body.

(** The same body after [body["document"]["page"] = [page]]. *)
Definition spec_example_wrapped : json :=
  JDict (dict_set k_document
           (JDict (dict_set k_page (JList [JDict example_page])
                     example_document))
           example_body).

Definition spec_example_tables : list table :=
  [{| page := 1; headers := [ustr "A"; ustr "B"];
      rows := [[ustr "1"; ustr "2"]] |}].

(** A page whose only row has the number 5 as its [column]. *)
Definition numeric_column : json :=
  body (JList [entry (JInt 0) (JList [row (JInt 5)])]).

(** A body whose [document] is a list, and a page whose [index] is
    [null]. *)
Definition document_list : json := JDict [(k_document, JList [])].

Definition null_index : json :=
  body (JList [entry JNull (JList [row (JList [])])]).

(** A page with the index -5 and one row without cells. *)
Definition negative_index : json :=
  body (JList [entry (JInt (-5)) (JList [row (JList [])])]).

(** A cell whose [text] is a mapping whose [text] is again a mapping. *)
Definition doubly_nested : list (pystr * json) :=
  [(k_text, JDict [(k_text, JDict [(k_text, JStr (ustr "x"))])])].

(** A page entry with [row: []] and the same entry without [row], between
    two ordinary entries. *)
Definition plain_entry (i : Z) (s : string) : json :=
  entry (JInt i) (JList [row (JList [cell (JStr (ustr s))])]).

(** The example page inside a list, as the schema has it. *)
Definition listed_example : json := body (JList [JDict example_page]).

Definition empty_row_entry : list (pystr * json) :=
  [(k_index, JInt 1); (k_row, JList [])].

Definition no_row_entry : list (pystr * json) :=
  [(k_index, JInt 1)].

Definition three_entries : json :=
  body (JList [plain_entry 0 "Total"; JDict empty_row_entry;
               plain_entry 2 "Net"]).

Definition three_entries_without_row : json :=
  body (JList [plain_entry 0 "Total"; JDict no_row_entry;
               plain_entry 2 "Net"]).

(** A one-page scanned document on which PaddleOCR reads the two lines
    [a b c] and [1 2]. *)
Definition short_row_pdf : Main.env :=
  {| Main.page_count := 1;
     Main.get_text := fun _ => Ok [];
     Main.paddle := fun _ => Some [Some [ustr "a b c"; ustr "1 2"]];
     Main.image_to_string := fun _ => [];
     Main.read_pdf_lattice := fun _ => [];
     Main.read_pdf_stream := fun _ => [];
     Main.write_output := fun _ _ => Ok (ustr "short_row_tables.json") |}.

(** A three-page digital document: each page carries a line of text,
    [load_page] accepts every index below 3 (a negative index counts from
    the end) and refuses the others; camelot finds nothing. *)
Definition three_pages : Main.env :=
  {| Main.page_count := 3;
     Main.get_text := fun n =>
       if n <? 3
       then Ok (ustr "Quarterly revenue by region, 2023")
       else Raise LibraryError;
     Main.paddle := fun _ => Some [];
     Main.image_to_string := fun _ => [];
     Main.read_pdf_lattice := fun _ => [];
     Main.read_pdf_stream := fun _ => [];
     Main.write_output := fun _ _ => Ok (ustr "three_pages_tables.json") |}.

(** The same document scanned: no text layer on any page. *)
Definition three_scanned_pages : Main.env :=
  {| Main.page_count := 3;
     Main.get_text := fun n =>
       if n <? 3 then Ok [] else Raise LibraryError;
     Main.paddle := fun _ => Some [];
     Main.image_to_string := fun _ => [];
     Main.read_pdf_lattice := fun _ => [];
     Main.read_pdf_stream := fun _ => [];
     Main.write_output := fun _ _ => Ok (ustr "three_pages_tables.json") |}.

End Samples.


(* ===================================================================== *)
(** ** Vocabulary for the properties of the normalisers *)
(* ===================================================================== *)

Definition is_mapping (v : json) : bool :=
  match v with JDict _ => true | _ => false end.

Definition is_list (v : json) : bool :=
  match v with JList _ => true | _ => false end.

(** The dictionaries among a list of values, in order. *)
Definition mappings (vs : list json) : list (list (pystr * json)) :=
  flat_map (fun v => match v with JDict d => [d] | _ => [] end) vs.

(** The entry is a mapping whose [row] is a list holding at least one
    mapping. *)
Definition yields_record (pg : json) : bool :=
  match pg with
  | JDict pd =>
      match dict_get pd k_row (JList []) with
      | JList rs => existsb is_mapping rs
      | _ => false
      end
  | _ => false
  end.

(** No header and no cell of the record starts or ends with white space. *)
Definition table_trimmed (t : table) : bool :=
  forallb trimmed (headers t) && forallb (forallb trimmed) (rows t).

Module MoreSamples.

(** [{"document": {"page": "oops"}}] *)
Definition page_is_string : list (pystr * json) :=
  [(k_document, JDict [(k_page, JStr (ustr "oops"))])].

(** A page list with a number and a string between two entries. *)
Definition mixed_pages : list json :=
  [Samples.plain_entry 0 "Total"; JInt 7; JStr (ustr "x");
   Samples.plain_entry 2 " Net "].

Definition mixed_document : list (pystr * json) :=
  [(k_page, JList mixed_pages)].

Definition mixed_body : list (pystr * json) :=
  [(k_document, JDict mixed_document)].

Definition mixed_tables : list table :=
  [{| page := 1; headers := [ustr "Total"]; rows := [] |};
   {| page := 3; headers := [ustr "Net"]; rows := [] |}].

(** A body without [page] under [document]. *)
Definition no_page_document : list (pystr * json) :=
  [(ustr "pageCount", JInt 0)].

Definition no_page_body : list (pystr * json) :=
  [(k_document, JDict no_page_document)].

End MoreSamples.

Section RecordOfEntry.
Context {B : PyBuiltins}.

(** The record [t] stands for the page entry [pg]: [pg] is a mapping, [page]
    is its converted [index] plus one, and the header row and the data rows
    together are as many as the mappings in its [row] list. *)
Definition record_of_entry (pg : json) (t : table) : Prop :=
  exists pd i,
    pg = JDict pd
    /\ py_int (dict_get pd k_index (JInt 0)) = Ok i
    /\ page t = i + 1
    /\ S (List.length (rows t))
       = List.length (filter is_mapping (entry_rows pg)).
End RecordOfEntry.

(* ===================================================================== *)
(** ** Vocabulary for the properties of src/main.py *)
(* ===================================================================== *)

Section Denotes.
Context {B : PyBuiltins}.

(** The pages one comma-separated part adds to the set (lines 24-29). *)
Definition part_pages (part : pystr) : result (list Z) :=
  let part := strip part in
  if contains 45 part
  then
    match split_on 45 part with
    | [a; b] =>
        start <- py_int (JStr a) ;;
        stop <- py_int (JStr b) ;;
        Ok (Main.py_range start (stop + 1))
    | _ => Raise ValueError
    end
  else
    p <- py_int (JStr part) ;;
    Ok [p].

(** The page [p] is named by one comma-separated part of a [--pages]
    argument: the part is a number equal to [p], or a range [a-b] with
    [int(a) <= p <= int(b)]. *)
Definition denotes (part : pystr) (p : Z) : Prop :=
  (contains 45 (strip part) = false
   /\ py_int (JStr (strip part)) = Ok p)
  \/ (contains 45 (strip part) = true
      /\ exists a b start stop,
           split_on 45 (strip part) = [a; b]
           /\ py_int (JStr a) = Ok start
           /\ py_int (JStr b) = Ok stop
           /\ start <= p <= stop).
End Denotes.

(** The tables [extract_tables_digital] works on: those of the lattice
    flavour, or those of the stream flavour when lattice finds none. *)
Definition camelot_found (e : Main.env) (pages : list Z)
  : list Main.camelot_table :=
  match Main.read_pdf_lattice e pages with
  | [] => Main.read_pdf_stream e pages
  | found => found
  end.

Definition df_not_empty (ct : Main.camelot_table) : bool :=
  negb (Main.df_empty (Main.tbl_df ct)).

(** The record [t] stands for the camelot table [ct]: same page, the
    cleaned cells of the first row recoverable from [headers] by splitting
    at the commas, the other rows as [raw_rows] and [processed_rows], the
    parsing report as [metadata]. *)
Definition record_of_camelot (ct : Main.camelot_table)
           (t : Main.digital_table) : Prop :=
  Main.dig_page t = Main.tbl_page ct
  /\ split_on 44 (Main.dig_headers t)
     = List.map Main.clean_header (hd [] (Main.tbl_df ct))
  /\ Main.dig_raw_rows t = tl (Main.tbl_df ct)
  /\ Main.dig_processed_rows t = tl (Main.tbl_df ct)
  /\ Main.dig_metadata t = Main.tbl_parsing_report ct.

(** The text lines [extract_tables_scanned] uses for page [p]: those of
    PaddleOCR, or those of Tesseract when PaddleOCR gives none. *)
Definition page_lines (e : Main.env) (p : Z) : list pystr :=
  match Main.paddle_lines (Main.paddle e (p - 1)) with
  | [] => Main.tesseract_lines (Main.image_to_string e (p - 1))
  | ls => ls
  end.

(** The OCR calls made for page [p]. *)
Definition page_events (e : Main.env) (p : Z) : list Main.event :=
  Main.EvPaddle (p - 1)
  :: match Main.paddle_lines (Main.paddle e (p - 1)) with
     | [] => [Main.EvTesseract (p - 1)]
     | _ => []
     end.

(** An OCR call on a page index of the document; for Tesseract, one on
    which PaddleOCR read no line. *)
Definition ocr_call_in_range (e : Main.env) (ev : Main.event) : Prop :=
  match ev with
  | Main.EvPaddle n => 0 <= n < Main.page_count e
  | Main.EvTesseract n =>
      0 <= n < Main.page_count e
      /\ Main.paddle_lines (Main.paddle e n) = []
  | _ => False
  end.

Definition housekeeping (ev : Main.event) : bool :=
  match ev with
  | Main.EvMkdtemp | Main.EvRmtree => true
  | _ => false
  end.

Module Runs.

(** A two-page scanned document: PaddleOCR returns a list without text on
    the first page, where Tesseract reads two lines, and reads two lines
    itself on the second page. *)
Definition two_scans : Main.env :=
  {| Main.page_count := 2;
     Main.get_text := fun _ => Ok (ustr "  ");
     Main.paddle := fun n =>
       if n =? 0 then Some [None]
       else Some [Some [ustr "Item Qty Price"; ustr "Bolt 4 0.10 each"]];
     Main.image_to_string := fun _ =>
       ustr "Name Amount" ++ [10%N] ++ ustr "Rent 900" ++ [10%N];
     Main.read_pdf_lattice := fun _ => [];
     Main.read_pdf_stream := fun _ => [];
     Main.write_output := fun _ _ => Ok (ustr "scan_tables.json") |}.

(** A two-page digital document in which the lattice flavour finds nothing
    and the stream flavour finds one table on page 2. *)
Definition stream_table : Main.camelot_table :=
  {| Main.tbl_page := 2;
     Main.tbl_df := [[ustr " Name, first "; ustr "Amount"];
                     [ustr "Rent"; ustr "900"]];
     Main.tbl_parsing_report := JDict [(ustr "accuracy", JInt 99)] |}.

Definition two_digital : Main.env :=
  {| Main.page_count := 2;
     Main.get_text := fun _ => Ok (ustr "Statement of account, March 2024");
     Main.paddle := fun _ => None;
     Main.image_to_string := fun _ => [];
     Main.read_pdf_lattice := fun _ => [];
     Main.read_pdf_stream := fun _ => [stream_table];
     Main.write_output := fun _ _ => Ok (ustr "digital_tables.json") |}.

(** What [extract_tables_digital] makes of [stream_table]. *)
Definition stream_record : Main.digital_table :=
  {| Main.dig_page := 2;
     Main.dig_headers := ustr "Name first,Amount";
     Main.dig_raw_rows := [[ustr "Rent"; ustr "900"]];
     Main.dig_processed_rows := [[ustr "Rent"; ustr "900"]];
     Main.dig_metadata := JDict [(ustr "accuracy", JInt 99)] |}.

(** The record of the one-page document [Samples.short_row_pdf]. *)
Definition short_row_record : Main.scanned_table :=
  {| Main.ocr_page := 1;
     Main.ocr_title := ustr "a b c";
     Main.ocr_headers := [ustr "a"; ustr "b"; ustr "c"];
     Main.ocr_rows := [[ustr "1"; ustr "2"]];
     Main.ocr_metadata := Main.PaddleOCR |}.

(** A document whose first page cannot be read. *)
Definition unreadable : Main.env :=
  {| Main.page_count := 2;
     Main.get_text := fun _ => Raise LibraryError;
     Main.paddle := fun _ => None;
     Main.image_to_string := fun _ => [];
     Main.read_pdf_lattice := fun _ => [];
     Main.read_pdf_stream := fun _ => [];
     Main.write_output := fun _ _ => Ok [] |}.

End Runs.

(* ===================================================================== *)
(** ** Vocabulary for the script of src/scan_pdf.py *)
(* ===================================================================== *)

(** The request is not the write of the output file. *)
Definition not_dump (c : ScanPdf.call) : bool :=
  match c with
  | ScanPdf.CallDump _ _ => false
  | _ => true
  end.

(** The decoded reply is a mapping whose [error] is absent or falsy and
    whose [key] holds [v]. *)
Definition good_reply (x : ScanPdf.exchange) (key : pystr) (v : json) : Prop :=
  exists d,
    x = ScanPdf.Replied (JDict d)
    /\ py_truthy (dict_get d ScanPdf.k_error JNull) = false
    /\ lookup key d = Some v.

Module Api.

Definition reply_url (u : string) : ScanPdf.exchange :=
  ScanPdf.Replied (JDict [(ScanPdf.k_error, JBool false);
                          (ScanPdf.k_url, JStr (ustr u))]).

(** A run in which every request succeeds and the JSON2 reply carries
    [body]. *)
Definition online (body : json) : ScanPdf.world :=
  {| ScanPdf.api_key := true;
     ScanPdf.path_exists := fun _ => true;
     ScanPdf.open_rb := fun _ => true;
     ScanPdf.open_wb := fun _ => true;
     ScanPdf.open_w := fun _ => true;
     ScanPdf.stem := fun _ => ustr "scan";
     ScanPdf.post_upload := fun _ => reply_url "https://files/up";
     ScanPdf.post_makesearchable := fun _ _ => reply_url "https://files/ocr";
     ScanPdf.post_json2 := fun _ =>
       ScanPdf.Replied (JDict [(ScanPdf.k_error, JBool false);
                               (ScanPdf.k_body, body)]);
     ScanPdf.get_ok := fun _ => true |}.

Definition argv : list pystr := [ustr "scan_pdf.py"; ustr "scan.pdf"].


End Api.

(* ===================================================================== *)
(** ** Strings and dictionaries *)
(* ===================================================================== *)

Lemma pystr_eqb_refl (s : pystr) : pystr_eqb s s = true.
Proof.
  unfold pystr_eqb. destruct (list_eq_dec N.eq_dec s s); congruence.
Qed.

Lemma pystr_eqb_eq (a b : pystr) : pystr_eqb a b = true <-> a = b.
Proof.
  unfold pystr_eqb. destruct (list_eq_dec N.eq_dec a b); split; congruence.
Qed.

Lemma lookup_dict_set (key : pystr) (v : json) (d : list (pystr * json)) :
  lookup key (dict_set key v d) = Some v.
Proof.
  induction d as [|[k x] d IH]; simpl.
  - now rewrite pystr_eqb_refl.
  - destruct (pystr_eqb key k) eqn:E; simpl; rewrite E; auto.
Qed.

Lemma dict_get_lookup (d : list (pystr * json)) (key : pystr) (v dflt : json) :
  lookup key d = Some v -> dict_get d key dflt = v.
Proof. unfold dict_get. now intros ->. Qed.

Lemma dict_get_missing (d : list (pystr * json)) (key : pystr) (dflt : json) :
  lookup key d = None -> dict_get d key dflt = dflt.
Proof. unfold dict_get. now intros ->. Qed.

(** A string that neither starts nor ends with white space is its own
    [strip]. *)
Lemma lstrip_nonspace (c : N) (s : pystr) :
  isspace c = false -> lstrip (c :: s) = c :: s.
Proof. simpl. now intros ->. Qed.

Lemma strip_delimited (a b : N) (s : pystr) :
  isspace a = false -> isspace b = false ->
  strip (a :: s ++ [b]) = a :: s ++ [b].
Proof.
  intros Ha Hb. unfold strip, rstrip.
  rewrite (lstrip_nonspace a _ Ha).
  assert (E : rev (a :: s ++ [b]) = b :: rev s ++ [a]).
  { simpl. rewrite rev_app_distr. reflexivity. }
  rewrite E, (lstrip_nonspace b _ Hb).
  simpl. rewrite rev_app_distr, rev_involutive. reflexivity.
Qed.

(** From [H : bind m k = Ok r]: the first computation returned. *)
Ltac returned H :=
  match type of H with
  | bind ?m _ = Ok _ =>
      let a := fresh "a" in
      let E := fresh "E" in
      destruct m as [a|] eqn:E; cbn [bind] in H; [|discriminate H]
  end.

Lemma bind_assoc {A C D : Type} (m : result A) (f : A -> result C)
      (g : C -> result D) :
  bind (bind m f) g = bind m (fun a => bind (f a) g).
Proof. now destruct m. Qed.

(* ===================================================================== *)
(** ** The loops of src/scan_pdf.py *)
(* ===================================================================== *)

Section ScanPdfLoops.
Context {B : PyBuiltins}.

(** The cells loop appends to [cols] and never raises. *)
Lemma scan_cells_loop_acc (cells : list json) (cols : list pystr) :
  ScanPdf.cells_loop cells cols = cols ++ ScanPdf.cells_loop cells [].
Proof.
  revert cols. induction cells as [|c cells IH]; intros cols; simpl.
  - now rewrite app_nil_r.
  - destruct c; auto.
    rewrite (IH (cols ++ _)), (IH [_]), <- app_assoc. reflexivity.
Qed.

(** One step of the pages loop: what the entry [pg] adds to [results]. *)
Lemma scan_pages_loop_cons (pg : json) (rest : list json) (acc : list table) :
  ScanPdf.pages_loop (pg :: rest) acc
  = bind (ScanPdf.pages_loop [pg] [])
         (fun ts => ScanPdf.pages_loop rest (acc ++ ts)).
Proof.
  destruct pg; cbn [ScanPdf.pages_loop bind]; rewrite ?app_nil_r; auto.
  destruct (py_int (dict_get d k_index (JInt 0))); cbn [bind]; auto.
  destruct (dict_get d k_row (JList [])) as [| | | | |rs|];
    cbn [bind]; rewrite ?app_nil_r; auto.
  destruct rs as [|r rs]; cbn [bind]; rewrite ?app_nil_r; auto.
  destruct (ScanPdf.rows_loop (r :: rs) []) as [mat|]; cbn [bind]; auto.
  destruct mat; cbn [bind app]; rewrite ?app_nil_r; auto.
Qed.

(** The pages loop appends to [results]. *)
Lemma scan_pages_loop_acc (ps : list json) (acc : list table) :
  ScanPdf.pages_loop ps acc
  = bind (ScanPdf.pages_loop ps []) (fun r => Ok (acc ++ r)).
Proof.
  revert acc. induction ps as [|pg ps IH]; intros acc.
  - simpl. now rewrite app_nil_r.
  - rewrite (scan_pages_loop_cons pg ps acc), (scan_pages_loop_cons pg ps []).
    rewrite bind_assoc.
    destruct (ScanPdf.pages_loop [pg] []) as [ts|]; simpl; auto.
    rewrite (IH (acc ++ ts)), (IH ts), bind_assoc.
    destruct (ScanPdf.pages_loop ps []); simpl; auto.
    now rewrite app_assoc.
Qed.

(** Running the loop over [ps1 ++ ps2] is running it over [ps1], then over
    [ps2] from the results reached. *)
Lemma scan_pages_loop_app (ps1 ps2 : list json) (acc : list table) :
  ScanPdf.pages_loop (ps1 ++ ps2) acc
  = bind (ScanPdf.pages_loop ps1 acc) (fun r => ScanPdf.pages_loop ps2 r).
Proof.
  revert acc. induction ps1 as [|pg ps1 IH]; intros acc; auto.
  rewrite <- app_comm_cons.
  rewrite (scan_pages_loop_cons pg (ps1 ++ ps2)), (scan_pages_loop_cons pg ps1).
  rewrite bind_assoc.
  destruct (ScanPdf.pages_loop [pg] []); simpl; auto.
Qed.

(** When the body reaches the loop, the loop runs over [page_entries]. *)
Lemma scan_parse_entries (body : json) :
  page_entries body <> [] ->
  ScanPdf.parse_json2_tables body = ScanPdf.pages_loop (page_entries body) [].
Proof.
  unfold ScanPdf.parse_json2_tables, page_entries.
  destruct body; simpl; try congruence.
  destruct (dict_get d k_document (JDict [])); simpl; try congruence.
  destruct (dict_get d0 k_page (JList [])); simpl; congruence.
Qed.

(** Whenever the function returns, it returns what the loop makes of
    [page_entries]. *)
Lemma scan_parse_returns (body : json) (res : list table) :
  ScanPdf.parse_json2_tables body = Ok res ->
  ScanPdf.pages_loop (page_entries body) [] = Ok res.
Proof.
  unfold ScanPdf.parse_json2_tables, page_entries.
  destruct body; simpl; try congruence.
  destruct (dict_get d k_document (JDict [])); simpl; try congruence.
  destruct (dict_get d0 k_page (JList [])); simpl; congruence.
Qed.

End ScanPdfLoops.

(* ===================================================================== *)
(** ** parse_json2_tables of src/scan_pdf.py *)
(* ===================================================================== *)

Section ScanPdfClaims.
Context {B : PyBuiltins}.

(** C1 (the code at the failing input).  On the body
    [{"document": {"page": [{"index": 0, "row": [{"column": 5}]}]}}], whose
    only row has a number where the list of cells should be, the function
    raises [TypeError]: the loop header [for cell in r.get("column", [])]
    iterates whatever [column] holds, and unlike [page], [row], the page
    entries, the rows and the cells, [column] is not type-checked first. *)
Theorem parse_json2_tables_numeric_column_raises :
  ScanPdf.parse_json2_tables Samples.numeric_column = Raise TypeError.
Proof. reflexivity. Qed.

(** The two other unguarded reads: [docs.get] on a [document] that is no
    mapping, and [int] of an [index] that is no number. *)
Lemma parse_json2_tables_document_list_raises :
  ScanPdf.parse_json2_tables Samples.document_list = Raise AttributeError.
Proof. reflexivity. Qed.

Lemma parse_json2_tables_null_index_raises :
  ScanPdf.parse_json2_tables Samples.null_index = Raise TypeError.
Proof. reflexivity. Qed.

(** C2.  On the example body of the specification (a bare page mapping with
    index 0, header cells A and B, data cells [{"text": "1"}] and 2) the
    function returns exactly
    [[{"page": 1, "headers": ["A", "B"], "rows": [["1", "2"]]}]]. *)
Theorem parse_json2_tables_spec_example :
  ScanPdf.parse_json2_tables Samples.spec_example
  = Ok Samples.spec_example_tables.
Proof. vm_compute. reflexivity. Qed.

(** C3.  If [document.page] of a body is the single mapping [m], the
    function returns on it what it returns on the same body with
    [document.page] replaced by the one-element list [[m]] (the same
    records, or the same exception). *)
Theorem parse_json2_tables_single_page_mapping
        (bd docs m : list (pystr * json)) :
  lookup k_document bd = Some (JDict docs) ->
  lookup k_page docs = Some (JDict m) ->
  ScanPdf.parse_json2_tables (JDict bd)
  = ScanPdf.parse_json2_tables
      (JDict (dict_set k_document
                (JDict (dict_set k_page (JList [JDict m]) docs)) bd)).
Proof.
  intros Hdoc Hpage. unfold ScanPdf.parse_json2_tables, py_get.
  cbn [bind].
  rewrite (dict_get_lookup _ _ _ _ Hdoc).
  rewrite (dict_get_lookup _ _ _ _ (lookup_dict_set k_document _ bd)).
  cbn [bind].
  rewrite (dict_get_lookup _ _ _ _ Hpage).
  rewrite (dict_get_lookup _ _ _ _ (lookup_dict_set k_page _ docs)).
  reflexivity.
Qed.

End ScanPdfClaims.

Lemma parse_json2_tables_single_page_mapping_witness :
  ScanPdf.parse_json2_tables (B := AsciiBuiltins.builtins) Samples.spec_example
  = ScanPdf.parse_json2_tables (B := AsciiBuiltins.builtins)
      Samples.spec_example_wrapped.
Proof.
  apply (parse_json2_tables_single_page_mapping (B := AsciiBuiltins.builtins)
           Samples.example_body Samples.example_document Samples.example_page);
    reflexivity.
Defined.

Section ScanPdfCells.
Context {B : PyBuiltins}.

(** The printed form of a dictionary is delimited by braces, so stripping
    leaves it as it is, and it is never empty. *)
Lemma strip_py_repr_dict (d : list (pystr * json)) :
  strip (py_repr (JDict d)) = py_repr (JDict d).
Proof.
  cbn [py_repr].
  change (ustr "{") with [123%N]. change (ustr "}") with [125%N].
  cbn [app]. now apply strip_delimited.
Qed.

Lemma py_repr_dict_not_empty (d : list (pystr * json)) :
  py_repr (JDict d) <> [].
Proof.
  cbn [py_repr]. change (ustr "{") with [123%N]. cbn [app]. discriminate.
Qed.

(** C4 (as amended).  A cell whose [text] is a mapping whose own [text] is
    again a mapping is unwrapped one level only, and the cell string is
    [str] of that inner mapping, its printed form in braces such as
    [{'text': 'x'}], which is never the empty string. *)
Theorem cell_text_doubly_nested (c t t2 : list (pystr * json)) :
  lookup k_text c = Some (JDict t) ->
  lookup k_text t = Some (JDict t2) ->
  ScanPdf.cell_text c = py_str (JDict t2) /\ ScanPdf.cell_text c <> [].
Proof.
  intros Hc Ht. unfold ScanPdf.cell_text.
  rewrite (dict_get_lookup _ _ _ _ Hc), (dict_get_lookup _ _ _ _ Ht).
  cbn [py_str]. rewrite strip_py_repr_dict.
  split; [reflexivity | apply py_repr_dict_not_empty].
Qed.

End ScanPdfCells.

(** C4 (as stated) fails: the cell [{"text": {"text": {"text": "x"}}}]
    yields the string [{'text': 'x'}], not the empty string. *)
Lemma cell_text_doubly_nested_not_empty :
  ~ (forall (B : PyBuiltins) (c t t2 : list (pystr * json)),
        lookup k_text c = Some (JDict t) ->
        lookup k_text t = Some (JDict t2) ->
        ScanPdf.cell_text c = []).
Proof.
  intros H.
  specialize (H AsciiBuiltins.builtins Samples.doubly_nested _ _
                eq_refl eq_refl).
  vm_compute in H. discriminate H.
Qed.

Lemma cell_text_doubly_nested_witness :
  ScanPdf.cell_text (B := AsciiBuiltins.builtins) Samples.doubly_nested
  = ustr "{'text': 'x'}"
  /\ ScanPdf.cell_text (B := AsciiBuiltins.builtins) Samples.doubly_nested
     <> [].
Proof.
  apply (cell_text_doubly_nested (B := AsciiBuiltins.builtins)
           Samples.doubly_nested
           [(k_text, JDict [(k_text, JStr (ustr "x"))])]
           [(k_text, JStr (ustr "x"))]);
    reflexivity.
Defined.

Section ScanPdfPages.
Context {B : PyBuiltins}.

(** The record a single entry adds carries its converted index plus one. *)
Lemma scan_entry_page (pd : list (pystr * json)) (ts : list table) :
  ScanPdf.pages_loop [JDict pd] [] = Ok ts ->
  exists i, py_int (dict_get pd k_index (JInt 0)) = Ok i
            /\ Forall (fun t => page t = i + 1) ts.
Proof.
  cbn [ScanPdf.pages_loop]. intros H. returned H.
  exists a. split; [reflexivity|].
  destruct (dict_get pd k_row (JList [])) as [| | | | |rs|];
    try (injection H as <-; constructor).
  destruct rs as [|r rs]; [injection H as <-; constructor|].
  returned H.
  destruct a0; injection H as <-; repeat constructor.
Qed.

Lemma scan_pages_loop_positive (ps : list json) :
  forall (acc res : list table),
    ScanPdf.pages_loop ps acc = Ok res ->
    forallb index_nonneg ps = true ->
    Forall (fun t => 1 <= page t) acc ->
    Forall (fun t => 1 <= page t) res.
Proof.
  induction ps as [|pg ps IH]; intros acc res Hrun Hidx Hacc.
  - injection Hrun as <-. exact Hacc.
  - rewrite scan_pages_loop_cons in Hrun.
    cbn [forallb] in Hidx. apply andb_prop in Hidx as [Hpg Hps].
    returned Hrun. rename a into ts, E into Ets.
    apply (IH (acc ++ ts) res Hrun Hps).
    apply Forall_app. split; [exact Hacc|].
    destruct pg as [| | | | | |pd];
      try (cbn in Ets; injection Ets as <-; constructor).
    destruct (scan_entry_page pd ts Ets) as [i [Hi Hts]].
    unfold index_nonneg in Hpg. rewrite Hi in Hpg.
    apply Z.leb_le in Hpg.
    eapply Forall_impl; [|exact Hts]. cbn. intros t ->. lia.
Qed.

(** C6 (as amended).  Whenever the function returns, and every page entry's
    [index] is absent or converts to an integer that is not negative, every
    record's [page] is an integer of at least 1. *)
Theorem parse_json2_tables_page_positive (body : json) (res : list table) :
  ScanPdf.parse_json2_tables body = Ok res ->
  forallb index_nonneg (page_entries body) = true ->
  Forall (fun t => 1 <= page t) res.
Proof.
  intros Hrun Hidx. apply scan_parse_returns in Hrun.
  eapply scan_pages_loop_positive; eauto.
Qed.

(** C7.  Take two bodies whose page entries differ in one place only: an
    entry with [row: []] in the first, an entry with no [row] key in the
    second, each with an [index] that is absent or converts to an integer.
    The function returns the same on both, and when it returns, the records
    are those of the entries before followed by those of the entries after:
    neither entry adds a record. *)
Theorem parse_json2_tables_empty_row_missing_row
        (body1 body2 : json) (pre post : list json)
        (d1 d2 : list (pystr * json)) :
  page_entries body1 = pre ++ JDict d1 :: post ->
  page_entries body2 = pre ++ JDict d2 :: post ->
  lookup k_row d1 = Some (JList []) ->
  lookup k_row d2 = None ->
  index_converts d1 = true ->
  index_converts d2 = true ->
  ScanPdf.parse_json2_tables body1 = ScanPdf.parse_json2_tables body2
  /\ forall res, ScanPdf.parse_json2_tables body1 = Ok res ->
       exists r1 r2, ScanPdf.pages_loop pre [] = Ok r1
                     /\ ScanPdf.pages_loop post [] = Ok r2
                     /\ res = r1 ++ r2.
Proof.
  intros E1 E2 Hrow1 Hrow2 Hidx1 Hidx2.
  assert (N1 : page_entries body1 <> []) by (rewrite E1; now destruct pre).
  assert (N2 : page_entries body2 <> []) by (rewrite E2; now destruct pre).
  rewrite (scan_parse_entries body1 N1), (scan_parse_entries body2 N2), E1, E2.
  rewrite !scan_pages_loop_app.
  assert (S1 : forall r, ScanPdf.pages_loop (JDict d1 :: post) r
                         = ScanPdf.pages_loop post r).
  { intros r. cbn [ScanPdf.pages_loop]. unfold index_converts in Hidx1.
    destruct (py_int (dict_get d1 k_index (JInt 0))); [|discriminate].
    now rewrite (dict_get_lookup _ _ _ (JList []) Hrow1). }
  assert (S2 : forall r, ScanPdf.pages_loop (JDict d2 :: post) r
                         = ScanPdf.pages_loop post r).
  { intros r. cbn [ScanPdf.pages_loop]. unfold index_converts in Hidx2.
    destruct (py_int (dict_get d2 k_index (JInt 0))); [|discriminate].
    now rewrite (dict_get_missing _ _ (JList []) Hrow2). }
  split.
  - destruct (ScanPdf.pages_loop pre []) as [r|]; cbn [bind]; auto.
    now rewrite S1, S2.
  - intros res Hres. returned Hres.
    rewrite S1, scan_pages_loop_acc in Hres. returned Hres.
    injection Hres as <-. now exists a, a0.
Qed.

(** Apart from the two unguarded reads, nothing in the function raises: if
    [document] is absent or a mapping, every [index] converts and every
    [column] can be iterated, the function returns, whatever else the body
    holds. *)
Lemma scan_rows_loop_returns (rs : list json) :
  forallb column_iterable rs = true ->
  forall mat, exists m, ScanPdf.rows_loop rs mat = Ok m.
Proof.
  induction rs as [|r rs IH]; intros Hok mat.
  - now exists mat.
  - cbn [forallb] in Hok. apply andb_prop in Hok as [Hr Hrs].
    destruct r as [| | | | | |rd]; cbn [ScanPdf.rows_loop]; auto.
    cbn [column_iterable] in Hr.
    destruct (py_iter (dict_get rd k_column (JList []))); [|discriminate].
    cbn [bind]. auto.
Qed.

Lemma scan_pages_loop_returns (ps : list json) :
  forallb entry_readable ps = true ->
  forall acc, exists res, ScanPdf.pages_loop ps acc = Ok res.
Proof.
  induction ps as [|pg ps IH]; intros Hok acc.
  - now exists acc.
  - cbn [forallb] in Hok. apply andb_prop in Hok as [Hpg Hps].
    destruct pg as [| | | | | |pd]; cbn [ScanPdf.pages_loop]; auto.
    cbn [entry_readable] in Hpg. apply andb_prop in Hpg as [Hi Hrows].
    unfold index_converts in Hi.
    destruct (py_int (dict_get pd k_index (JInt 0))); [|discriminate].
    cbn [bind].
    destruct (dict_get pd k_row (JList [])) as [| | | | |rs|]; auto.
    destruct rs as [|r rs]; auto.
    destruct (scan_rows_loop_returns (r :: rs) Hrows []) as [mat ->].
    cbn [bind]. destruct mat; auto.
Qed.

Lemma parse_json2_tables_returns (bd : list (pystr * json)) :
  document_is_mapping bd = true ->
  forallb entry_readable (page_entries (JDict bd)) = true ->
  exists res, ScanPdf.parse_json2_tables (JDict bd) = Ok res.
Proof.
  unfold document_is_mapping, ScanPdf.parse_json2_tables, page_entries.
  cbn [py_get bind].
  destruct (dict_get bd k_document (JDict [])) as [| | | | | |docs];
    try discriminate.
  intros _. cbn [py_get bind].
  destruct (dict_get docs k_page (JList [])) as [| | | | |ps|m]; intros Hok;
    try (now exists []).
  - now apply scan_pages_loop_returns.
  - now apply scan_pages_loop_returns.
Qed.

End ScanPdfPages.

(** C6 (as stated) fails: the page entry
    [{"index": -5, "row": [{"column": []}]}] yields a record with [page]
    equal to -4. *)
Lemma parse_json2_tables_page_not_positive :
  ~ (forall (B : PyBuiltins) (body : json) (res : list table),
        ScanPdf.parse_json2_tables body = Ok res ->
        Forall (fun t => 1 <= page t) res).
Proof.
  intros H.
  specialize (H AsciiBuiltins.builtins Samples.negative_index _ eq_refl).
  inversion H as [|t ts Hpage _]. cbn in Hpage. lia.
Qed.

Lemma parse_json2_tables_page_positive_witness :
  Forall (fun t => 1 <= page t) Samples.spec_example_tables.
Proof.
  apply (parse_json2_tables_page_positive (B := AsciiBuiltins.builtins)
           Samples.spec_example Samples.spec_example_tables);
    reflexivity.
Defined.

Lemma parse_json2_tables_empty_row_missing_row_witness :
  ScanPdf.parse_json2_tables (B := AsciiBuiltins.builtins)
    Samples.three_entries
  = ScanPdf.parse_json2_tables (B := AsciiBuiltins.builtins)
      Samples.three_entries_without_row
  /\ forall res,
       ScanPdf.parse_json2_tables (B := AsciiBuiltins.builtins)
         Samples.three_entries = Ok res ->
       exists r1 r2,
         ScanPdf.pages_loop (B := AsciiBuiltins.builtins)
           [Samples.plain_entry 0 "Total"] [] = Ok r1
         /\ ScanPdf.pages_loop (B := AsciiBuiltins.builtins)
              [Samples.plain_entry 2 "Net"] [] = Ok r2
         /\ res = r1 ++ r2.
Proof.
  apply (parse_json2_tables_empty_row_missing_row
           (B := AsciiBuiltins.builtins)
           Samples.three_entries Samples.three_entries_without_row
           [Samples.plain_entry 0 "Total"] [Samples.plain_entry 2 "Net"]
           Samples.empty_row_entry Samples.no_row_entry);
    reflexivity.
Defined.

(* ===================================================================== *)
(** ** Inputs that follow the PageTree schema *)
(* ===================================================================== *)

Section WellFormed.
Context {B : PyBuiltins}.

Lemma wf_cell_inv (c : json) :
  wf_cell c = true ->
  exists cd, c = JDict cd
    /\ ScanPdf.cell_text cd = wf_cell_string c
    /\ ConvertAndParse.cells_loop [c] [] = Ok [wf_cell_string c].
Proof.
  destruct c as [| | | | | |cd]; try discriminate.
  cbn [wf_cell]. destruct (lookup k_text cd) as [v|] eqn:E; try discriminate.
  intros Hv. exists cd. split; [reflexivity|].
  unfold ScanPdf.cell_text.
  cbn [ConvertAndParse.cells_loop py_get wf_cell_string bind].
  rewrite (dict_get_lookup _ _ _ (JStr []) E).
  destruct v as [| | | |s| |t]; try discriminate; [now split|].
  cbn [wf_text] in Hv.
  destruct (lookup k_text t) as [w|] eqn:E2; try discriminate.
  destruct w; try discriminate.
  rewrite (dict_get_lookup _ _ _ (JStr []) E2). now split.
Qed.

Lemma conv_cells_loop_cons (c : json) (cells : list json) (cols : list pystr) :
  ConvertAndParse.cells_loop (c :: cells) cols
  = bind (ConvertAndParse.cells_loop [c] [])
         (fun ss => ConvertAndParse.cells_loop cells (cols ++ ss)).
Proof.
  cbn [ConvertAndParse.cells_loop].
  destruct (py_get c k_text (JStr [])) as [txt|]; cbn [bind]; auto.
  destruct (match txt with
            | JDict t => Ok (dict_get t k_text (JStr []))
            | _ => Ok txt
            end) as [txt'|]; cbn [bind]; auto.
  destruct (ConvertAndParse.py_strip txt'); cbn [bind app]; auto.
Qed.

Lemma wf_cells_loops (cells : list json) :
  forallb wf_cell cells = true ->
  forall cols,
    ScanPdf.cells_loop cells cols = cols ++ List.map wf_cell_string cells
    /\ ConvertAndParse.cells_loop cells cols
       = Ok (cols ++ List.map wf_cell_string cells).
Proof.
  induction cells as [|c cells IH]; intros Hwf cols.
  - cbn. now rewrite app_nil_r.
  - cbn [forallb] in Hwf. apply andb_prop in Hwf as [Hc Hcs].
    destruct (wf_cell_inv c Hc) as [cd [-> [Hs Hc']]].
    rewrite conv_cells_loop_cons, Hc'. cbn [bind ScanPdf.cells_loop].
    rewrite Hs.
    destruct (IH Hcs (cols ++ [wf_cell_string (JDict cd)])) as [-> ->].
    cbn [List.map]. rewrite <- app_assoc. now split.
Qed.

Lemma wf_rows_loops (rs : list json) :
  forallb wf_row rs = true ->
  forall mat,
    ScanPdf.rows_loop rs mat = Ok (mat ++ List.map wf_row_strings rs)
    /\ ConvertAndParse.rows_loop rs mat
       = Ok (mat ++ List.map wf_row_strings rs).
Proof.
  induction rs as [|r rs IH]; intros Hwf mat.
  - cbn. now rewrite app_nil_r.
  - cbn [forallb] in Hwf. apply andb_prop in Hwf as [Hr Hrs].
    destruct r as [| | | | | |rd]; try discriminate.
    cbn [wf_row] in Hr.
    destruct (lookup k_column rd) as [v|] eqn:E; try discriminate.
    destruct v as [| | | | |cells|]; try discriminate.
    cbn [ScanPdf.rows_loop ConvertAndParse.rows_loop py_get bind List.map].
    rewrite (dict_get_lookup _ _ _ (JList []) E). cbn [py_iter bind].
    destruct (wf_cells_loops cells Hr []) as [-> ->]. cbn [bind app].
    destruct (IH Hrs (mat ++ [List.map wf_cell_string cells])) as [-> ->].
    cbn [wf_row_strings]. rewrite E, <- app_assoc. now split.
Qed.

Lemma wf_pages_loops (ps : list json) :
  forallb wf_page ps = true ->
  forall acc,
    ScanPdf.pages_loop ps acc
    = Ok (acc ++ List.map wf_record (filter has_rows ps))
    /\ ConvertAndParse.pages_loop ps acc
       = Ok (acc ++ List.map wf_record (filter has_rows ps)).
Proof.
  induction ps as [|p ps IH]; intros Hwf acc.
  - cbn. now rewrite app_nil_r.
  - cbn [forallb] in Hwf. apply andb_prop in Hwf as [Hp Hps].
    destruct p as [| | | | | |pd]; try discriminate.
    cbn [wf_page] in Hp.
    destruct (lookup k_index pd) as [v|] eqn:Ei; try discriminate.
    destruct v as [| |i| | | |]; try discriminate.
    destruct (lookup k_row pd) as [v|] eqn:Er; try discriminate.
    destruct v as [| | | | |rs|]; try discriminate.
    cbn [ScanPdf.pages_loop ConvertAndParse.pages_loop py_get bind filter].
    rewrite (dict_get_lookup _ _ _ (JInt 0) Ei).
    rewrite (dict_get_lookup _ _ _ (JList []) Er).
    cbn [py_int bind].
    assert (Hh : has_rows (JDict pd) = match rs with [] => false | _ => true end)
      by (unfold has_rows; cbn [entry_rows]; now rewrite Er).
    rewrite Hh.
    destruct rs as [|r rs].
    + cbn [py_truthy negb]. apply (IH Hps acc).
    + cbn [py_truthy negb py_iter bind].
      destruct (wf_rows_loops (r :: rs) Hp []) as [-> ->].
      cbn [app List.map bind].
      destruct (IH Hps (acc ++ [{| page := i + 1;
                                   headers := wf_row_strings r;
                                   rows := List.map wf_row_strings rs |}]))
        as [-> ->].
      assert (Hrec : wf_record (JDict pd)
                     = {| page := i + 1; headers := wf_row_strings r;
                          rows := List.map wf_row_strings rs |})
        by (unfold wf_record; cbn [entry_rows entry_index];
            now rewrite Ei, Er).
      cbn [List.map]. rewrite Hrec, <- app_assoc. now split.
Qed.

(** On a body of the schema both normalisers return the records of the
    page entries that have rows, in the order of the entries. *)
Lemma wf_parse_both (body : json) :
  well_formed body = true ->
  let res := List.map wf_record (filter has_rows (page_entries body)) in
  ScanPdf.parse_json2_tables body = Ok res
  /\ ConvertAndParse.parse_json2_tables body = Ok res.
Proof.
  destruct body as [| | | | | |bd]; try discriminate.
  cbn [well_formed].
  destruct (lookup k_document bd) as [v|] eqn:Ed; try discriminate.
  destruct v as [| | | | | |docs]; try discriminate.
  destruct (lookup k_page docs) as [v|] eqn:Ep; try discriminate.
  destruct v as [| | | | |ps|]; try discriminate.
  intros Hwf.
  unfold ScanPdf.parse_json2_tables, ConvertAndParse.parse_json2_tables,
    page_entries.
  cbn [py_get bind].
  rewrite (dict_get_lookup _ _ _ (JDict []) Ed). cbn [py_get bind].
  rewrite (dict_get_lookup _ _ _ (JList []) Ep).
  rewrite (dict_get_lookup _ _ _ JNull Ep). cbn [py_iter bind].
  apply (wf_pages_loops ps Hwf []).
Qed.

(** C5.  On a body of the PageTree schema the function returns, and its
    records correspond one to one, in order, to the page entries whose
    [row] list is not empty; each record's [page] is the entry's [index]
    plus 1. *)
Theorem parse_json2_tables_well_formed (body : json) :
  well_formed body = true ->
  exists res,
    ScanPdf.parse_json2_tables body = Ok res
    /\ Forall2 (fun p t => page t = entry_index p + 1)
         (filter has_rows (page_entries body)) res.
Proof.
  intros Hwf. destruct (wf_parse_both body Hwf) as [Hscan _].
  eexists. split; [exact Hscan|].
  generalize (filter has_rows (page_entries body)) as l.
  induction l; cbn [List.map]; constructor; [reflexivity | assumption].
Qed.

(** C10.  On a body of the PageTree schema the normaliser of
    src/scan_pdf.py and the normaliser of src/.py both return, and return
    the same list of records. *)
Theorem parse_json2_tables_agree_on_well_formed (body : json) :
  well_formed body = true ->
  exists res,
    ScanPdf.parse_json2_tables body = Ok res
    /\ ConvertAndParse.parse_json2_tables body = Ok res.
Proof.
  intros Hwf. eexists. exact (wf_parse_both body Hwf).
Qed.

End WellFormed.

Lemma parse_json2_tables_well_formed_witness :
  exists res,
    ScanPdf.parse_json2_tables (B := AsciiBuiltins.builtins)
      Samples.three_entries = Ok res
    /\ Forall2 (fun p t => page t = entry_index p + 1)
         (filter has_rows (page_entries Samples.three_entries)) res.
Proof.
  apply (parse_json2_tables_well_formed (B := AsciiBuiltins.builtins)
           Samples.three_entries).
  reflexivity.
Defined.

Lemma parse_json2_tables_agree_on_well_formed_witness :
  exists res,
    ScanPdf.parse_json2_tables (B := AsciiBuiltins.builtins)
      Samples.listed_example = Ok res
    /\ ConvertAndParse.parse_json2_tables (B := AsciiBuiltins.builtins)
         Samples.listed_example = Ok res.
Proof.
  apply (parse_json2_tables_agree_on_well_formed
           (B := AsciiBuiltins.builtins) Samples.listed_example).
  reflexivity.
Defined.

(* ===================================================================== *)
(** ** src/main.py *)
(* ===================================================================== *)

(** Truncation: no data row of a record built by [structure] has more cells
    than the record has headers. *)
Lemma structure_rows_truncated (p : Z) (lines : list pystr)
      (d : Main.ocr_data) :
  Forall (fun row => (List.length row
                      <= List.length (Main.ocr_headers
                                        (Main.structure p lines d)))%nat)
         (Main.ocr_rows (Main.structure p lines d)).
Proof.
  unfold Main.structure. cbn [Main.ocr_rows Main.ocr_headers].
  apply Forall_forall. intros row Hin.
  apply in_map_iff in Hin as [row' [<- _]].
  rewrite length_firstn. apply Nat.le_min_l.
Qed.

(** C8 (the code at the failing input).  On a one-page scanned document
    whose OCR lines are [a b c] and [1 2], the record has the three headers
    a, b, c and the single data row 1, 2 of two cells: the slice
    [row[:len(headers)]] shortens long rows and leaves short rows short. *)
Theorem extract_tables_scanned_short_row :
  Main.extract_tables_scanned Samples.short_row_pdf [1]
  = ([Main.EvPaddle 0],
     Ok [{| Main.ocr_page := 1;
            Main.ocr_title := ustr "a b c";
            Main.ocr_headers := [ustr "a"; ustr "b"; ustr "c"];
            Main.ocr_rows := [[ustr "1"; ustr "2"]];
            Main.ocr_metadata := Main.PaddleOCR |}]).
Proof. vm_compute. reflexivity. Qed.

(** Hence not every record has rows as long as its headers. *)
Lemma extract_tables_scanned_rows_not_aligned :
  ~ (forall (e : Main.env) (pages : list Z) (ts : list Main.scanned_table),
        snd (Main.extract_tables_scanned e pages) = Ok ts ->
        Forall (fun t =>
                  Forall (fun row => List.length row
                                     = List.length (Main.ocr_headers t))
                         (Main.ocr_rows t)) ts).
Proof.
  intros H.
  specialize (H Samples.short_row_pdf [1] _ eq_refl).
  inversion H as [|t ts Ht _]. inversion Ht as [|row rs Hrow _].
  discriminate Hrow.
Qed.

Lemma io_bind_trace {A C : Type} (m : Main.io A) (k : A -> Main.io C) :
  exists tr, fst (Main.io_bind m k) = fst m ++ tr.
Proof.
  destruct m as [tr [a|e]]; cbn.
  - destruct (k a) as [tr' r]. now exists tr'.
  - exists []. now rewrite app_nil_r.
Qed.

Lemma io_bind_ret {A C : Type} (a : A) (k : A -> Main.io C) :
  Main.io_bind (Main.ret a) k = k a.
Proof. cbn. now destruct (k a). Qed.

Lemma io_bind_call_ok {A C : Type} (ev : Main.event) (a : A)
      (k : A -> Main.io C) :
  Main.io_bind (Main.call ev (Ok a)) k = (ev :: fst (k a), snd (k a)).
Proof. cbn. now destruct (k a). Qed.

Lemma is_scanned_trace (e : Main.env) (n : Z) :
  fst (Main.is_scanned e n) = [Main.EvGetText n].
Proof.
  unfold Main.is_scanned, Main.call. cbn.
  now destruct (Main.get_text e n).
Qed.

(** With a page list that is not empty, the first library call of
    [process_pdf] after creating its temporary directory is the read of page
    [pages[0] - 1] for the scanned-or-digital classification, whatever the
    document and whatever the pages. *)
Lemma process_pdf_classifies_first (e : Main.env) (p : Z) (ps : list Z)
      (fmt : pystr) :
  exists tr,
    fst (Main.process_pdf e (p :: ps) fmt)
    = Main.EvMkdtemp :: Main.EvGetText (p - 1) :: tr.
Proof.
  unfold Main.process_pdf.
  rewrite io_bind_call_ok. cbn [fst Main.finally].
  rewrite io_bind_ret.
  match goal with
  | |- context [Main.io_bind (Main.is_scanned e ?n) ?k] =>
      destruct (io_bind_trace (Main.is_scanned e n) k) as [t Ht]
  end.
  rewrite Ht, is_scanned_trace. cbn [app]. eexists. reflexivity.
Qed.

(** So every run on a page list that is not empty does classification work,
    valid pages or not. *)
Lemma process_pdf_always_classifies (e : Main.env) (p : Z) (ps : list Z)
      (fmt : pystr) :
  existsb Main.extraction_work (fst (Main.process_pdf e (p :: ps) fmt)) = true.
Proof.
  destruct (process_pdf_classifies_first e p ps fmt) as [tr ->].
  reflexivity.
Qed.

(** With the empty page list, [pages[0]] raises [IndexError] before anything
    else; the check [if not pages] further down is never reached. *)
Lemma process_pdf_empty_pages (e : Main.env) (fmt : pystr) :
  Main.process_pdf e [] fmt
  = ([Main.EvMkdtemp; Main.EvRmtree], Raise IndexError).
Proof. reflexivity. Qed.

(** C9 (the code at the failing input).  Asked for page 7 of a three-page
    document, [process_pdf] first calls [is_scanned], which asks the
    document for page index 6; the library's error for that page is what
    propagates, and no "No valid pages to process" failure is raised. *)
Theorem process_pdf_out_of_range_page :
  Main.process_pdf Samples.three_pages [7] (ustr "json")
  = ([Main.EvMkdtemp; Main.EvGetText 6; Main.EvRmtree], Raise LibraryError).
Proof. vm_compute. reflexivity. Qed.

(** Asked for page 0 of a three-page scanned document, [process_pdf]
    classifies on the last page (index -1), extracts nothing, raises
    nothing and writes an output file without tables. *)
Lemma process_pdf_page_zero_scanned :
  Main.process_pdf Samples.three_scanned_pages [0] (ustr "json")
  = ([Main.EvMkdtemp; Main.EvGetText (-1); Main.EvWrite; Main.EvRmtree],
     Ok (ustr "three_pages_tables.json")).
Proof. vm_compute. reflexivity. Qed.

(** Asked for page 0 of a three-page digital document, the validation
    failure is raised by [extract_tables_digital], after the
    classification. *)
Lemma process_pdf_page_zero_digital :
  Main.process_pdf Samples.three_pages [0] (ustr "json")
  = ([Main.EvMkdtemp; Main.EvGetText (-1); Main.EvRmtree],
     Raise NoValidPages).
Proof. vm_compute. reflexivity. Qed.

(** Hence the validation failure does not come before the extraction work:
    a page list without a valid page need not end in "No valid pages to
    process", and its run is not free of library calls for classification
    or extraction. *)
Lemma process_pdf_validation_not_first :
  ~ (forall (e : Main.env) (pages : list Z) (fmt : pystr),
        Main.validate_pages e pages = [] ->
        snd (Main.process_pdf e pages fmt) = Raise NoValidPages
        /\ existsb Main.extraction_work (fst (Main.process_pdf e pages fmt))
           = false).
Proof.
  intros H.
  destruct (H Samples.three_pages [7] (ustr "json") eq_refl) as [Hexn _].
  vm_compute in Hexn. discriminate Hexn.
Qed.

(* ===================================================================== *)
(** ** More on strings *)
(* ===================================================================== *)

Lemma lstrip_head (s : pystr) :
  lstrip s = [] \/ exists c r, lstrip s = c :: r /\ isspace c = false.
Proof.
  induction s as [|a s IH]; cbn [lstrip]; auto.
  destruct (isspace a) eqn:E; auto.
  right. now exists a, s.
Qed.

Lemma lstrip_keeps_last (l : pystr) (c : N) :
  isspace c = false -> exists l', lstrip (l ++ [c]) = l' ++ [c].
Proof.
  intros Hc. induction l as [|a l IH]; cbn [app lstrip].
  - rewrite Hc. now exists [].
  - destruct (isspace a); auto. now exists (a :: l).
Qed.

(** The result of [strip] neither starts nor ends with white space. *)
Lemma strip_trimmed (s : pystr) : trimmed (strip s) = true.
Proof.
  unfold strip, rstrip.
  destruct (lstrip_head s) as [-> | [c [r [-> Hc]]]]; [reflexivity|].
  cbn [rev].
  destruct (lstrip_keeps_last (rev r) c Hc) as [l' El'].
  rewrite El', rev_app_distr. cbn [rev app]. unfold trimmed.
  rewrite Hc. cbn [negb andb].
  destruct l' as [|a l''].
  - cbn. now rewrite Hc.
  - destruct (lstrip_head (rev r ++ [c])) as [E | [a' [r' [E Ha']]]];
      rewrite El' in E; [discriminate|].
    cbn [app] in E. injection E as -> _.
    cbn [rev]. change (c :: rev l'' ++ [a']) with ((c :: rev l'') ++ [a']).
    now rewrite last_last, Ha'.
Qed.

Lemma lstrip_all_space (s : pystr) :
  forallb isspace s = true -> lstrip s = [].
Proof.
  induction s as [|a s IH]; cbn [forallb lstrip]; auto.
  intros H. apply andb_prop in H as [-> Hs]. auto.
Qed.

(** A string of white space strips to the empty string. *)
Lemma strip_all_space (s : pystr) :
  forallb isspace s = true -> strip s = [].
Proof.
  intros H. unfold strip. now rewrite (lstrip_all_space s H).
Qed.

Lemma split_on_from_app (sep : N) (p cur rest : pystr) :
  contains sep p = false ->
  split_on_from sep cur (p ++ rest) = split_on_from sep (rev p ++ cur) rest.
Proof.
  revert cur. induction p as [|c p IH]; intros cur Hp; [reflexivity|].
  cbn [contains existsb] in Hp. apply orb_false_elim in Hp as [Hc Hp].
  cbn [app split_on_from]. rewrite N.eqb_sym, Hc.
  rewrite (IH (c :: cur) Hp). cbn [rev]. now rewrite <- app_assoc.
Qed.

(** Splitting at a separator undoes joining with it, as long as no piece
    contains the separator and there is at least one piece. *)
Lemma split_on_join (sep : N) (parts : list pystr) :
  parts <> [] ->
  forallb (fun p => negb (contains sep p)) parts = true ->
  split_on sep (join [sep] parts) = parts.
Proof.
  unfold split_on. induction parts as [|p parts IH]; [congruence|].
  intros _ H. cbn [forallb] in H. apply andb_prop in H as [Hp Hps].
  apply negb_true_iff in Hp.
  destruct parts as [|q parts].
  - cbn [join]. rewrite <- (app_nil_r p) at 1.
    rewrite (split_on_from_app sep p [] [] Hp). cbn [split_on_from].
    now rewrite app_nil_r, rev_involutive.
  - change (join [sep] (p :: q :: parts))
      with (p ++ [sep] ++ join [sep] (q :: parts)).
    rewrite (split_on_from_app sep p [] _ Hp). cbn [app split_on_from].
    rewrite N.eqb_refl, app_nil_r, rev_involutive.
    rewrite IH; [reflexivity | discriminate | exact Hps].
Qed.

(** The pieces of [s1 + sep + s2] are the pieces of [s1] followed by the
    pieces of [s2]. *)
Lemma split_on_from_sep (sep : N) (s1 s2 cur : pystr) :
  split_on_from sep cur (s1 ++ sep :: s2)
  = split_on_from sep cur s1 ++ split_on sep s2.
Proof.
  revert cur. induction s1 as [|c s1 IH]; intros cur; cbn [app split_on_from].
  - now rewrite N.eqb_refl.
  - destruct (c =? sep)%N; rewrite IH; reflexivity.
Qed.

(* ===================================================================== *)
(** ** More on parse_json2_tables of src/scan_pdf.py *)
(* ===================================================================== *)

Section ScanPdfMore.
Context {B : PyBuiltins}.

(** X1.  If [document] is absent or a mapping, and [page] under it is absent
    or neither a list nor a mapping (a string, a number, [null]), the
    function returns the empty list. *)
Theorem parse_json2_tables_unsupported_page (bd docs : list (pystr * json)) :
  dict_get bd k_document (JDict []) = JDict docs ->
  (forall v, lookup k_page docs = Some v ->
             is_list v = false /\ is_mapping v = false) ->
  ScanPdf.parse_json2_tables (JDict bd) = Ok [].
Proof.
  intros Hdoc Hpage. unfold ScanPdf.parse_json2_tables.
  cbn [py_get bind]. rewrite Hdoc. cbn [py_get bind]. unfold dict_get.
  destruct (lookup k_page docs) as [v|]; [|reflexivity].
  destruct (Hpage v eq_refl) as [Hl Hm].
  destruct v; try discriminate; reflexivity.
Qed.

Lemma scan_cells_loop_mappings (cells : list json) (cols : list pystr) :
  ScanPdf.cells_loop cells cols
  = cols ++ List.map ScanPdf.cell_text (mappings cells).
Proof.
  revert cols. induction cells as [|c cells IH]; intros cols.
  - cbn. now rewrite app_nil_r.
  - destruct c; cbn [ScanPdf.cells_loop mappings flat_map app]; auto;
      try apply IH.
    rewrite IH. cbn [List.map]. now rewrite <- app_assoc.
Qed.


Lemma scan_pages_loop_filter (ps : list json) (acc : list table) :
  ScanPdf.pages_loop ps acc = ScanPdf.pages_loop (filter is_mapping ps) acc.
Proof.
  revert acc. induction ps as [|pg ps IH]; intros acc; [reflexivity|].
  destruct pg; cbn [filter is_mapping]; try (cbn [ScanPdf.pages_loop]; apply IH).
  rewrite (scan_pages_loop_cons (JDict d) ps),
    (scan_pages_loop_cons (JDict d) (filter is_mapping ps)).
  destruct (ScanPdf.pages_loop [JDict d] []); cbn [bind]; auto.
Qed.

(** X2.  Page entries that are not mappings are ignored: the function
    returns on a body with a list under [document.page] what it returns on
    the same body with the non-mappings removed from that list. *)
Theorem parse_json2_tables_ignores_non_mapping_entries
        (bd docs : list (pystr * json)) (ps : list json) :
  lookup k_document bd = Some (JDict docs) ->
  lookup k_page docs = Some (JList ps) ->
  ScanPdf.parse_json2_tables (JDict bd)
  = ScanPdf.parse_json2_tables
      (JDict (dict_set k_document
                (JDict (dict_set k_page (JList (filter is_mapping ps)) docs))
                bd)).
Proof.
  intros Hdoc Hpage. unfold ScanPdf.parse_json2_tables, py_get.
  cbn [bind].
  rewrite (dict_get_lookup _ _ _ _ Hdoc).
  rewrite (dict_get_lookup _ _ _ _ (lookup_dict_set k_document _ bd)).
  cbn [bind].
  rewrite (dict_get_lookup _ _ _ _ Hpage).
  rewrite (dict_get_lookup _ _ _ _ (lookup_dict_set k_page _ docs)).
  apply scan_pages_loop_filter.
Qed.


Lemma scan_cells_loop_trimmed (cells : list json) (cols : list pystr) :
  forallb trimmed cols = true ->
  forallb trimmed (ScanPdf.cells_loop cells cols) = true.
Proof.
  intros Hcols. rewrite scan_cells_loop_mappings, forallb_app, Hcols.
  cbn [andb]. apply forallb_forall. intros s Hin.
  apply in_map_iff in Hin as [c [<- _]]. apply strip_trimmed.
Qed.

Lemma scan_rows_loop_trimmed (rs : list json) :
  forall mat m,
    ScanPdf.rows_loop rs mat = Ok m ->
    forallb (forallb trimmed) mat = true ->
    forallb (forallb trimmed) m = true.
Proof.
  induction rs as [|r rs IH]; intros mat m Hrun Hmat.
  - injection Hrun as <-. exact Hmat.
  - destruct r; cbn [ScanPdf.rows_loop] in Hrun; try (now apply (IH mat)).
    returned Hrun. apply (IH _ _ Hrun).
    rewrite forallb_app, Hmat. cbn [forallb andb].
    now rewrite scan_cells_loop_trimmed.
Qed.

Lemma scan_entry_trimmed (pd : list (pystr * json)) (ts : list table) :
  ScanPdf.pages_loop [JDict pd] [] = Ok ts ->
  forallb table_trimmed ts = true.
Proof.
  cbn [ScanPdf.pages_loop]. intros H. returned H.
  destruct (dict_get pd k_row (JList [])) as [| | | | |rs|];
    try (injection H as <-; reflexivity).
  destruct rs as [|r rs]; [injection H as <-; reflexivity|].
  returned H. rename a0 into mat.
  pose proof (scan_rows_loop_trimmed _ _ _ E0 eq_refl) as Hmat.
  destruct mat as [|hd data]; injection H as <-; [reflexivity|].
  cbn [forallb] in *. unfold table_trimmed. cbn [headers rows].
  now rewrite Hmat.
Qed.

Lemma scan_pages_loop_trimmed (ps : list json) :
  forall acc res,
    ScanPdf.pages_loop ps acc = Ok res ->
    forallb table_trimmed acc = true ->
    forallb table_trimmed res = true.
Proof.
  induction ps as [|pg ps IH]; intros acc res Hrun Hacc.
  - injection Hrun as <-. exact Hacc.
  - rewrite scan_pages_loop_cons in Hrun. returned Hrun.
    apply (IH _ _ Hrun). rewrite forallb_app, Hacc. cbn [andb].
    destruct pg; try (cbn in E; injection E as <-; reflexivity).
    now apply (scan_entry_trimmed d).
Qed.

(** X4.  Whenever the function returns, no header and no cell of any record
    starts or ends with white space. *)
Theorem parse_json2_tables_strings_trimmed (body : json) (res : list table) :
  ScanPdf.parse_json2_tables body = Ok res ->
  forallb table_trimmed res = true.
Proof.
  intros Hrun. apply scan_parse_returns in Hrun.
  now apply (scan_pages_loop_trimmed _ _ _ Hrun).
Qed.

Lemma scan_rows_loop_readable (rs : list json) :
  forall mat m,
    ScanPdf.rows_loop rs mat = Ok m -> forallb column_iterable rs = true.
Proof.
  induction rs as [|r rs IH]; intros mat m Hrun; [reflexivity|].
  cbn [forallb].
  destruct r; cbn [ScanPdf.rows_loop column_iterable andb] in *;
    try (now apply (IH mat m)).
  destruct (py_iter (dict_get d k_column (JList []))); cbn [bind] in Hrun;
    [|discriminate].
  exact (IH _ m Hrun).
Qed.

Lemma scan_pages_loop_readable (ps : list json) :
  forall acc res,
    ScanPdf.pages_loop ps acc = Ok res -> forallb entry_readable ps = true.
Proof.
  induction ps as [|pg ps IH]; intros acc res Hrun; [reflexivity|].
  cbn [forallb]. rewrite scan_pages_loop_cons in Hrun. returned Hrun.
  rewrite (IH _ _ Hrun), andb_true_r.
  destruct pg as [| | | | | |pd]; try reflexivity.
  cbn [ScanPdf.pages_loop] in E. cbn [entry_readable]. unfold index_converts.
  destruct (py_int (dict_get pd k_index (JInt 0))); cbn [bind] in E;
    [|discriminate].
  cbn [andb].
  destruct (dict_get pd k_row (JList [])) as [| | | | |rs|]; try reflexivity.
  destruct rs as [|r rs]; [reflexivity|].
  destruct (ScanPdf.rows_loop (r :: rs) []) as [mat|] eqn:Er; cbn [bind] in E;
    [|discriminate].
  now apply (scan_rows_loop_readable _ _ _ Er).
Qed.

(** X5.  On a mapping, the function returns exactly when [document] is
    absent or a mapping, the [index] of every page mapping is absent or
    converts with [int], and the [column] of every row mapping of a [row]
    list is absent or can be iterated; otherwise it raises. *)
Theorem parse_json2_tables_returns_iff (bd : list (pystr * json)) :
  (exists res, ScanPdf.parse_json2_tables (JDict bd) = Ok res)
  <-> document_is_mapping bd = true
      /\ forallb entry_readable (page_entries (JDict bd)) = true.
Proof.
  split.
  - intros [res Hrun]. split.
    + unfold ScanPdf.parse_json2_tables, document_is_mapping in *.
      cbn [py_get bind] in Hrun.
      destruct (dict_get bd k_document (JDict [])); try discriminate.
      reflexivity.
    + apply scan_parse_returns in Hrun.
      now apply (scan_pages_loop_readable _ _ _ Hrun).
  - intros [Hdoc Hok].
    unfold document_is_mapping, ScanPdf.parse_json2_tables, page_entries in *.
    cbn [py_get bind].
    destruct (dict_get bd k_document (JDict [])) as [| | | | | |docs];
      try discriminate.
    cbn [py_get bind].
    destruct (dict_get docs k_page (JList [])) as [| | | | |ps|m];
      try (now exists []); now apply scan_pages_loop_returns.
Qed.

End ScanPdfMore.

Section ScanPdfRecords.
Context {B : PyBuiltins}.

Lemma scan_rows_loop_length (rs : list json) :
  forall mat m,
    ScanPdf.rows_loop rs mat = Ok m ->
    List.length m
    = (List.length mat + List.length (filter is_mapping rs))%nat.
Proof.
  induction rs as [|r rs IH]; intros mat m Hrun.
  - injection Hrun as <-. cbn. lia.
  - destruct r; cbn [ScanPdf.rows_loop filter is_mapping] in *;
      try (now apply IH).
    returned Hrun. rewrite (IH _ _ Hrun), length_app. cbn. lia.
Qed.

Lemma existsb_filter_nil (rs : list json) :
  existsb is_mapping rs = false <-> filter is_mapping rs = [].
Proof.
  induction rs as [|r rs IH]; cbn; [tauto|].
  destruct (is_mapping r); cbn; [split; discriminate | exact IH].
Qed.

Lemma scan_entry_record (pd : list (pystr * json)) (ts : list table) :
  ScanPdf.pages_loop [JDict pd] [] = Ok ts ->
  if yields_record (JDict pd)
  then exists t, ts = [t] /\ record_of_entry (JDict pd) t
  else ts = [].
Proof.
  cbn [ScanPdf.pages_loop yields_record]. intros H. returned H.
  rename a into i.
  destruct (dict_get pd k_row (JList [])) as [| | | | |rs|] eqn:Erow;
    try (injection H as <-; reflexivity).
  destruct rs as [|r rs]; [injection H as <-; reflexivity|].
  returned H. rename a into mat.
  pose proof (scan_rows_loop_length _ _ _ E0) as Hlen.
  cbn [List.length Nat.add] in Hlen.
  assert (Hrows : entry_rows (JDict pd) = r :: rs).
  { unfold dict_get in Erow. cbn [entry_rows].
    destruct (lookup k_row pd); [now subst | discriminate]. }
  destruct (existsb is_mapping (r :: rs)) eqn:Eex.
  - destruct mat as [|hd data].
    + symmetry in Hlen. apply length_zero_iff_nil in Hlen.
      apply existsb_filter_nil in Hlen. congruence.
    + injection H as <-. eexists. split; [reflexivity|].
      exists pd, i. rewrite Hrows. cbn [page rows].
      repeat split; auto.
  - apply existsb_filter_nil in Eex. rewrite Eex in Hlen.
    destruct mat; [now injection H as <- | discriminate].
Qed.

Lemma scan_pages_loop_records (ps : list json) :
  forall acc res,
    ScanPdf.pages_loop ps acc = Ok res ->
    exists ts, res = acc ++ ts
               /\ Forall2 record_of_entry (filter yields_record ps) ts.
Proof.
  induction ps as [|pg ps IH]; intros acc res Hrun.
  - injection Hrun as <-. exists []. rewrite app_nil_r. now split.
  - rewrite scan_pages_loop_cons in Hrun. returned Hrun.
    destruct (IH _ _ Hrun) as [ts [-> Hts]].
    exists (a ++ ts). rewrite app_assoc. split; [reflexivity|].
    cbn [filter].
    destruct pg as [| | | | | |pd];
      try (cbn in E; injection E as <-; exact Hts).
    pose proof (scan_entry_record pd a E) as Hpd.
    destruct (yields_record (JDict pd)).
    + destruct Hpd as [t [-> Ht]]. now constructor.
    + now subst a.
Qed.

(** X6.  Whenever the function returns, its records stand, one to one and
    in order, for the page entries that are mappings whose [row] is a list
    holding at least one mapping: [page] is [int(index) + 1], and headers
    plus data rows are as many as the mappings in [row].  Every other entry
    (no mapping, [row] missing, no list, empty, or without a mapping in it)
    leaves no record. *)
Theorem parse_json2_tables_records (body : json) (res : list table) :
  ScanPdf.parse_json2_tables body = Ok res ->
  Forall2 record_of_entry (filter yields_record (page_entries body)) res.
Proof.
  intros Hrun. apply scan_parse_returns in Hrun.
  destruct (scan_pages_loop_records _ _ _ Hrun) as [ts [-> Hts]].
  exact Hts.
Qed.

End ScanPdfRecords.

(* ===================================================================== *)
(** ** The two normalisers compared *)
(* ===================================================================== *)

Section Refinement.
Context {B : PyBuiltins}.

Lemma conv_cells_loop_scan (cells : list json) :
  forall cols r,
    ConvertAndParse.cells_loop cells cols = Ok r ->
    ScanPdf.cells_loop cells cols = r.
Proof.
  induction cells as [|c cells IH]; intros cols r Hrun.
  - now injection Hrun as <-.
  - cbn [ConvertAndParse.cells_loop] in Hrun.
    destruct c as [| | | | | |cd]; try discriminate.
    cbn [py_get bind] in Hrun. cbn [ScanPdf.cells_loop].
    unfold ScanPdf.cell_text.
    destruct (dict_get cd k_text (JStr [])) as [| | | |s| |t];
      cbn [bind ConvertAndParse.py_strip] in Hrun; try discriminate.
    + now apply IH.
    + destruct (dict_get t k_text (JStr []));
        cbn [bind ConvertAndParse.py_strip] in Hrun; try discriminate.
      now apply IH.
Qed.

Lemma conv_rows_loop_scan (rs : list json) :
  forall mat m,
    ConvertAndParse.rows_loop rs mat = Ok m ->
    ScanPdf.rows_loop rs mat = Ok m.
Proof.
  induction rs as [|r rs IH]; intros mat m Hrun.
  - exact Hrun.
  - cbn [ConvertAndParse.rows_loop] in Hrun.
    destruct r as [| | | | | |rd]; try discriminate.
    cbn [py_get bind] in Hrun. cbn [ScanPdf.rows_loop].
    destruct (py_iter (dict_get rd k_column (JList []))) as [cells|];
      cbn [bind] in *; [|discriminate].
    returned Hrun. rewrite (conv_cells_loop_scan _ _ _ E). now apply IH.
Qed.

(** The earlier rows loop raises on the first row that is no mapping, so
    over the characters of a string or the keys of a mapping it returns
    only when there are none. *)
Lemma conv_rows_loop_strings (ss : list pystr) (mat m : list (list pystr)) :
  ConvertAndParse.rows_loop (List.map JStr ss) mat = Ok m -> ss = [].
Proof. destruct ss; [reflexivity | discriminate]. Qed.

Lemma conv_pages_loop_strings (ss : list pystr) (acc res : list table) :
  ConvertAndParse.pages_loop (List.map JStr ss) acc = Ok res -> ss = [].
Proof. destruct ss; [reflexivity | discriminate]. Qed.

Lemma conv_pages_loop_scan (ps : list json) :
  forall acc res,
    ConvertAndParse.pages_loop ps acc = Ok res ->
    ScanPdf.pages_loop ps acc = Ok res.
Proof.
  induction ps as [|pg ps IH]; intros acc res Hrun.
  - exact Hrun.
  - cbn [ConvertAndParse.pages_loop] in Hrun.
    destruct pg as [| | | | | |pd]; try discriminate.
    cbn [py_get bind] in Hrun. cbn [ScanPdf.pages_loop].
    destruct (py_int (dict_get pd k_index (JInt 0))) as [i|];
      cbn [bind] in *; [|discriminate].
    destruct (dict_get pd k_row (JList [])) as [|b|z|f|s|rs|d];
      cbn [py_truthy negb py_iter bind] in Hrun.
    + now apply IH.
    + destruct b; [discriminate | now apply IH].
    + destruct (z =? 0); [now apply IH | discriminate].
    + destruct f; try discriminate; now apply IH.
    + destruct s as [|c s]; [now apply IH|].
      cbn [negb] in Hrun. returned Hrun.
      rewrite <- (map_map (fun c => [c]) JStr) in E.
      apply conv_rows_loop_strings in E. discriminate.
    + destruct rs as [|r rs]; [now apply IH|].
      cbn [negb] in Hrun. returned Hrun.
      rewrite (conv_rows_loop_scan _ _ _ E). cbn [bind].
      destruct a; [discriminate | now apply IH].
    + destruct d as [|kv d]; [now apply IH|].
      cbn [negb] in Hrun. returned Hrun.
      rewrite <- (map_map fst JStr) in E.
      apply conv_rows_loop_strings in E. discriminate.
Qed.

(** X7.  Wherever the earlier normaliser of src/.py returns, the guarded
    normaliser of src/scan_pdf.py returns the same records: the guards only
    turn exceptions of the earlier code into skipped entries. *)
Theorem parse_json2_tables_refines (body : json) (res : list table) :
  ConvertAndParse.parse_json2_tables body = Ok res ->
  ScanPdf.parse_json2_tables body = Ok res.
Proof.
  unfold ConvertAndParse.parse_json2_tables, ScanPdf.parse_json2_tables.
  destruct body as [| | | | | |bd]; try discriminate.
  cbn [py_get bind].
  destruct (dict_get bd k_document (JDict [])) as [| | | | | |docs];
    try discriminate.
  cbn [py_get bind]. unfold dict_get.
  destruct (lookup k_page docs) as [v|]; [|discriminate].
  destruct v as [| | | |s|ps|m]; cbn [py_iter bind]; try discriminate.
  - intros Hrun. rewrite <- (map_map (fun c => [c]) JStr) in Hrun.
    pose proof (conv_pages_loop_strings _ _ _ Hrun) as Hs.
    apply map_eq_nil in Hs. subst s. exact Hrun.
  - apply conv_pages_loop_scan.
  - apply conv_pages_loop_scan.
Qed.

(** X8.  When [document] is absent or a mapping without [page], the earlier
    normaliser raises [TypeError] (it iterates [None]) and the guarded one
    returns the empty list. *)
Theorem parse_json2_tables_missing_page (bd docs : list (pystr * json)) :
  dict_get bd k_document (JDict []) = JDict docs ->
  lookup k_page docs = None ->
  ConvertAndParse.parse_json2_tables (JDict bd) = Raise TypeError
  /\ ScanPdf.parse_json2_tables (JDict bd) = Ok [].
Proof.
  intros Hdoc Hpage.
  unfold ConvertAndParse.parse_json2_tables, ScanPdf.parse_json2_tables.
  cbn [py_get bind]. rewrite Hdoc. cbn [py_get bind].
  unfold dict_get. rewrite Hpage. now split.
Qed.

End Refinement.

Lemma parse_json2_tables_unsupported_page_witness :
  ScanPdf.parse_json2_tables (B := AsciiBuiltins.builtins)
    (JDict MoreSamples.page_is_string) = Ok [].
Proof.
  apply (parse_json2_tables_unsupported_page (B := AsciiBuiltins.builtins)
           MoreSamples.page_is_string [(k_page, JStr (ustr "oops"))]).
  - reflexivity.
  - intros v Hv. injection Hv as <-. split; reflexivity.
Defined.

Lemma parse_json2_tables_ignores_non_mapping_entries_witness :
  ScanPdf.parse_json2_tables (B := AsciiBuiltins.builtins)
    (JDict MoreSamples.mixed_body)
  = ScanPdf.parse_json2_tables (B := AsciiBuiltins.builtins)
      (JDict (dict_set k_document
                (JDict (dict_set k_page
                          (JList (filter is_mapping MoreSamples.mixed_pages))
                          MoreSamples.mixed_document))
                MoreSamples.mixed_body)).
Proof.
  apply (parse_json2_tables_ignores_non_mapping_entries
           (B := AsciiBuiltins.builtins)
           MoreSamples.mixed_body MoreSamples.mixed_document
           MoreSamples.mixed_pages);
    reflexivity.
Defined.

Lemma parse_json2_tables_strings_trimmed_witness :
  forallb table_trimmed MoreSamples.mixed_tables = true.
Proof.
  apply (parse_json2_tables_strings_trimmed (B := AsciiBuiltins.builtins)
           (JDict MoreSamples.mixed_body) MoreSamples.mixed_tables).
  reflexivity.
Defined.

Lemma parse_json2_tables_records_witness :
  Forall2 (record_of_entry (B := AsciiBuiltins.builtins))
    (filter yields_record (page_entries (JDict MoreSamples.mixed_body)))
    MoreSamples.mixed_tables.
Proof.
  apply (parse_json2_tables_records (B := AsciiBuiltins.builtins)
           (JDict MoreSamples.mixed_body) MoreSamples.mixed_tables).
  reflexivity.
Defined.

Lemma parse_json2_tables_refines_witness :
  ScanPdf.parse_json2_tables (B := AsciiBuiltins.builtins)
    Samples.listed_example = Ok Samples.spec_example_tables.
Proof.
  apply (parse_json2_tables_refines (B := AsciiBuiltins.builtins)
           Samples.listed_example Samples.spec_example_tables).
  reflexivity.
Defined.

Lemma parse_json2_tables_missing_page_witness :
  ConvertAndParse.parse_json2_tables (B := AsciiBuiltins.builtins)
    (JDict MoreSamples.no_page_body) = Raise TypeError
  /\ ScanPdf.parse_json2_tables (B := AsciiBuiltins.builtins)
       (JDict MoreSamples.no_page_body) = Ok [].
Proof.
  apply (parse_json2_tables_missing_page (B := AsciiBuiltins.builtins)
           MoreSamples.no_page_body MoreSamples.no_page_document);
    reflexivity.
Defined.

(* ===================================================================== *)
(** ** parse_pages of src/main.py *)
(* ===================================================================== *)

Lemma in_py_range (a b p : Z) : In p (Main.py_range a b) <-> a <= p < b.
Proof.
  unfold Main.py_range. rewrite in_map_iff. split.
  - intros [i [<- Hi]]. apply in_seq in Hi. lia.
  - intros Hp. exists (Z.to_nat (p - a)). split; [lia|].
    apply in_seq. lia.
Qed.

Lemma existsb_eqb_in (x : Z) (s : list Z) :
  existsb (Z.eqb x) s = true <-> In x s.
Proof.
  rewrite existsb_exists. split.
  - intros [y [Hy Hxy]]. apply Z.eqb_eq in Hxy. now subst.
  - intros Hx. exists x. split; [exact Hx | apply Z.eqb_refl].
Qed.

Lemma in_set_add (x y : Z) (s : list Z) :
  In y (Main.set_add x s) <-> y = x \/ In y s.
Proof.
  unfold Main.set_add. destruct (existsb (Z.eqb x) s) eqn:E.
  - apply existsb_eqb_in in E. split; [auto | intros [-> | H]; auto].
  - rewrite in_app_iff. cbn. intuition.
Qed.

Lemma nodup_set_add (x : Z) (s : list Z) :
  NoDup s -> NoDup (Main.set_add x s).
Proof.
  intros Hs. unfold Main.set_add. destruct (existsb (Z.eqb x) s) eqn:E; auto.
  assert (Hx : ~ In x s).
  { intros Hin. apply existsb_eqb_in in Hin. congruence. }
  apply NoDup_app;
    [exact Hs
    | repeat constructor; intros []
    | intros y Hy [Heq | []]; subst; contradiction].
Qed.

Lemma set_update_spec (xs : list Z) :
  forall s, NoDup s ->
    NoDup (Main.set_update xs s)
    /\ forall y, In y (Main.set_update xs s) <-> In y xs \/ In y s.
Proof.
  unfold Main.set_update.
  induction xs as [|x xs IH]; intros s Hs; cbn [fold_left].
  - split; [exact Hs | cbn; tauto].
  - destruct (IH (Main.set_add x s) (nodup_set_add x s Hs)) as [Hnd Hin].
    split; [exact Hnd|]. intros y. rewrite Hin, in_set_add. cbn. intuition.
Qed.

Lemma in_insert_sorted (x y : Z) (l : list Z) :
  In y (Main.insert_sorted x l) <-> y = x \/ In y l.
Proof.
  induction l as [|z l IH]; cbn [Main.insert_sorted].
  - cbn. intuition.
  - destruct (x <=? z); cbn [In]; [intuition|]. rewrite IH. intuition.
Qed.

Lemma in_sorted (y : Z) (s : list Z) : In y (Main.sorted s) <-> In y s.
Proof.
  unfold Main.sorted. induction s as [|x s IH]; cbn [fold_right]; [tauto|].
  rewrite in_insert_sorted, IH. cbn. intuition.
Qed.

Lemma insert_sorted_increasing (x : Z) (l : list Z) :
  StronglySorted Z.lt l -> ~ In x l ->
  StronglySorted Z.lt (Main.insert_sorted x l).
Proof.
  induction l as [|z l IH]; intros Hl Hx; cbn [Main.insert_sorted].
  - repeat constructor.
  - apply StronglySorted_inv in Hl as [Hl Hz].
    destruct (x <=? z) eqn:E.
    + apply Z.leb_le in E.
      assert (Hlt : x < z) by (cbn in Hx; lia).
      constructor; [now constructor|].
      constructor; [exact Hlt|].
      eapply Forall_impl; [|exact Hz]. cbn. intros; lia.
    + apply Z.leb_gt in E. constructor.
      * apply IH; [exact Hl | cbn in Hx; tauto].
      * apply Forall_forall. intros y Hy.
        apply in_insert_sorted in Hy as [-> | Hy]; [exact E|].
        rewrite Forall_forall in Hz. auto.
Qed.

Lemma sorted_increasing (s : list Z) :
  NoDup s -> StronglySorted Z.lt (Main.sorted s).
Proof.
  unfold Main.sorted. induction s as [|x s IH]; intros Hs; cbn [fold_right].
  - constructor.
  - inversion Hs as [|? ? Hx Hs']; subst.
    apply insert_sorted_increasing; [now apply IH|].
    intros Hin. apply (proj1 (in_sorted x s)) in Hin. contradiction.
Qed.

Section ParsePages.
Context {B : PyBuiltins}.

Lemma parts_loop_cons (part : pystr) (rest : list pystr) (pages : list Z) :
  Main.parts_loop (part :: rest) pages
  = bind (part_pages part)
         (fun ps => Main.parts_loop rest (Main.set_update ps pages)).
Proof.
  cbn [Main.parts_loop]. unfold part_pages.
  destruct (contains 45 (strip part)).
  - destruct (split_on 45 (strip part)) as [|a [|b [|c l]]]; try reflexivity.
    destruct (py_int (JStr a)); cbn [bind]; [|reflexivity].
    destruct (py_int (JStr b)); reflexivity.
  - destruct (py_int (JStr (strip part))); reflexivity.
Qed.

Lemma part_pages_raises (part : pystr) (e : exn) :
  part_pages part = Raise e -> e = ValueError.
Proof.
  unfold part_pages. cbn [py_int].
  destruct (contains 45 (strip part)).
  - destruct (split_on 45 (strip part)) as [|a [|b [|c l]]]; try congruence.
    destruct (int_of_str a); cbn [bind]; [|congruence].
    destruct (int_of_str b); cbn [bind]; congruence.
  - destruct (int_of_str (strip part)); cbn [bind]; congruence.
Qed.

Lemma part_pages_denotes (part : pystr) (ps : list Z) (p : Z) :
  part_pages part = Ok ps -> (In p ps <-> denotes part p).
Proof.
  unfold part_pages, denotes.
  destruct (contains 45 (strip part)) eqn:Edash.
  - destruct (split_on 45 (strip part)) as [|a [|b [|c l]]] eqn:Esplit;
      try discriminate.
    destruct (py_int (JStr a)) as [start|] eqn:Ea; cbn [bind];
      [|discriminate].
    destruct (py_int (JStr b)) as [stop|] eqn:Eb; cbn [bind];
      [|discriminate].
    intros H. injection H as <-. rewrite in_py_range. split.
    + intros Hp. right. split; [reflexivity|].
      exists a, b, start, stop. repeat split; auto; lia.
    + intros [[H _] | [_ [a' [b' [s1 [s2 [H [H1 [H2 H3]]]]]]]]];
        [discriminate|].
      injection H as <- <-.
      assert (s1 = start) by congruence.
      assert (s2 = stop) by congruence. subst. lia.
  - destruct (py_int (JStr (strip part))) as [q|] eqn:Eq; cbn [bind];
      [|discriminate].
    intros H. injection H as <-. cbn [In]. split.
    + intros [<- | []]. left. now split.
    + intros [[_ H] | [H _]]; [left; congruence | discriminate].
Qed.

(** No page is named by a part that does not read. *)
Lemma part_pages_not_denotes (part : pystr) (e : exn) (p : Z) :
  part_pages part = Raise e -> ~ denotes part p.
Proof.
  unfold part_pages, denotes.
  destruct (contains 45 (strip part)) eqn:Edash.
  - destruct (split_on 45 (strip part)) as [|a [|b [|c l]]] eqn:Esplit;
      try (intros _ [[H _] | [_ [a' [b' [s1 [s2 [H _]]]]]]]; discriminate).
    destruct (py_int (JStr a)) as [start|] eqn:Ea; cbn [bind].
    + destruct (py_int (JStr b)) as [stop|] eqn:Eb; cbn [bind];
        [discriminate|].
      intros _ [[H _] | [_ [a' [b' [s1 [s2 [H [_ [H2 _]]]]]]]]];
        [discriminate|].
      injection H as <- <-. congruence.
    + intros _ [[H _] | [_ [a' [b' [s1 [s2 [H [H1 _]]]]]]]];
        [discriminate|].
      injection H as <- <-. congruence.
  - destruct (py_int (JStr (strip part))) eqn:Eq; cbn [bind];
      [discriminate|].
    intros _ [[_ H] | [H _]]; [congruence | discriminate].
Qed.

Lemma parts_loop_spec (parts : list pystr) :
  forall pages r,
    NoDup pages ->
    Main.parts_loop parts pages = Ok r ->
    NoDup r
    /\ forall p, In p r <->
                 In p pages
                 \/ exists part, In part parts /\ denotes part p.
Proof.
  induction parts as [|part rest IH]; intros pages r Hnd Hrun.
  - injection Hrun as <-. split; [exact Hnd|].
    intros p. split; [auto | intros [H | [part [[] _]]]; exact H].
  - rewrite parts_loop_cons in Hrun. returned Hrun. rename a into ps.
    destruct (set_update_spec ps pages Hnd) as [Hnd' Hin'].
    destruct (IH _ r Hnd' Hrun) as [Hr Hin].
    split; [exact Hr|]. intros p. rewrite Hin, Hin'.
    rewrite (part_pages_denotes part ps p E). cbn [In].
    split.
    + intros [[Hd | Hp] | [q [Hq Hd]]]; eauto.
    + intros [Hp | [q [[<- | Hq] Hd]]]; eauto.
Qed.

Lemma parts_loop_raises (parts : list pystr) :
  forall pages e, Main.parts_loop parts pages = Raise e -> e = ValueError.
Proof.
  induction parts as [|part rest IH]; intros pages e Hrun; [discriminate|].
  rewrite parts_loop_cons in Hrun.
  destruct (part_pages part) as [ps|e'] eqn:E; cbn [bind] in Hrun.
  - eauto.
  - injection Hrun as <-. now apply (part_pages_raises part).
Qed.

(** Whether the loop returns does not depend on the set it starts from. *)
Lemma parts_loop_returns (parts : list pystr) :
  forall pages r pages',
    Main.parts_loop parts pages = Ok r ->
    exists r', Main.parts_loop parts pages' = Ok r'.
Proof.
  induction parts as [|part rest IH]; intros pages r pages' Hrun.
  - now exists pages'.
  - rewrite parts_loop_cons in *. returned Hrun. cbn [bind]. eauto.
Qed.

Lemma parts_loop_app (l1 l2 : list pystr) :
  forall pages,
    Main.parts_loop (l1 ++ l2) pages
    = bind (Main.parts_loop l1 pages) (fun r => Main.parts_loop l2 r).
Proof.
  induction l1 as [|part l1 IH]; intros pages; [reflexivity|].
  rewrite <- app_comm_cons, !parts_loop_cons.
  destruct (part_pages part); cbn [bind]; auto.
Qed.

(** X9.  Whenever [parse_pages] returns, its list is strictly increasing:
    sorted and without repetition, whatever the order and the overlaps of
    the parts of the argument. *)
Theorem parse_pages_increasing (pages_str : pystr) (r : list Z) :
  Main.parse_pages pages_str = Ok r -> StronglySorted Z.lt r.
Proof.
  unfold Main.parse_pages. intros Hrun. returned Hrun.
  injection Hrun as <-.
  apply sorted_increasing.
  now apply (parts_loop_spec _ _ _ (NoDup_nil Z) E).
Qed.

(** X10.  Whenever [parse_pages] returns, a page is in its list exactly
    when some comma-separated part names it: a number equal to the page, or
    a range [a-b] with [a <= page <= b] (so a range whose end is below its
    start names nothing). *)
Theorem parse_pages_members (pages_str : pystr) (r : list Z) (p : Z) :
  Main.parse_pages pages_str = Ok r ->
  (In p r <-> exists part, In part (split_on 44 pages_str) /\ denotes part p).
Proof.
  unfold Main.parse_pages. intros Hrun. returned Hrun.
  injection Hrun as <-. rewrite in_sorted.
  destruct (parts_loop_spec _ _ _ (NoDup_nil Z) E) as [_ Hin].
  rewrite Hin. cbn [In]. tauto.
Qed.

(** X11.  Joining two arguments with a comma gives the union: if
    [parse_pages] returns on [s1] and on [s2], it returns on [s1,s2], and a
    page is in that list exactly when it is in one of the two lists. *)
Theorem parse_pages_comma (s1 s2 : pystr) (r1 r2 : list Z) :
  Main.parse_pages s1 = Ok r1 ->
  Main.parse_pages s2 = Ok r2 ->
  exists r, Main.parse_pages (s1 ++ 44%N :: s2) = Ok r
            /\ forall p, In p r <-> In p r1 \/ In p r2.
Proof.
  unfold Main.parse_pages, split_on. intros H1 H2.
  returned H1. returned H2. rename a into q1, a0 into q2.
  injection H1 as <-. injection H2 as <-.
  rewrite split_on_from_sep, parts_loop_app, E. cbn [bind].
  destruct (parts_loop_returns _ _ _ q1 E0) as [q Eq]. unfold split_on.
  rewrite Eq. cbn [bind]. eexists. split; [reflexivity|].
  intros p. rewrite !in_sorted.
  destruct (parts_loop_spec _ _ _ (NoDup_nil Z) E) as [Hnd1 Hin1].
  destruct (parts_loop_spec _ _ _ (NoDup_nil Z) E0) as [_ Hin2].
  destruct (parts_loop_spec _ _ _ Hnd1 Eq) as [_ Hin].
  rewrite Hin, Hin2. cbn [In]. tauto.
Qed.

(** X12.  [parse_pages] raises nothing but [ValueError]. *)
Theorem parse_pages_raises (pages_str : pystr) (e : exn) :
  Main.parse_pages pages_str = Raise e -> e = ValueError.
Proof.
  unfold Main.parse_pages. intros Hrun.
  destruct (Main.parts_loop (split_on 44 pages_str) []) eqn:E;
    cbn [bind] in Hrun; [discriminate|].
  injection Hrun as <-. now apply (parts_loop_raises _ _ _ E).
Qed.

End ParsePages.

(* ===================================================================== *)
(** ** The extractors of src/main.py *)
(* ===================================================================== *)

Lemma replace_char_removes (old : N) (s : pystr) :
  contains old (replace_char old [] s) = false.
Proof.
  unfold replace_char, contains.
  induction s as [|c s IH]; cbn [flat_map]; [reflexivity|].
  destruct (c =? old)%N eqn:E; cbn [app existsb]; [exact IH|].
  now rewrite N.eqb_sym, E, IH.
Qed.

Lemma clean_header_no_comma (h : pystr) :
  contains 44 (Main.clean_header h) = false.
Proof. apply replace_char_removes. Qed.

Lemma digital_loop_spec (cts : list Main.camelot_table) :
  forall acc, exists ts,
    Main.digital_loop cts acc = acc ++ ts
    /\ Forall2 record_of_camelot (filter df_not_empty cts) ts.
Proof.
  induction cts as [|ct cts IH]; intros acc; cbn [Main.digital_loop filter].
  - exists []. rewrite app_nil_r. now split.
  - unfold df_not_empty at 1.
    destruct (Main.df_empty (Main.tbl_df ct)) eqn:E; cbn [negb]; [apply IH|].
    match goal with
    | |- context [Main.digital_loop cts (acc ++ [?t])] =>
        destruct (IH (acc ++ [t])) as [ts [-> Hts]]; exists (t :: ts)
    end.
    rewrite <- app_assoc. split; [reflexivity|].
    constructor; [|exact Hts].
    unfold record_of_camelot. cbn. repeat split.
    apply split_on_join.
    + destruct (Main.tbl_df ct) as [|[|c r] df]; discriminate.
    + apply forallb_forall. intros h Hh.
      apply in_map_iff in Hh as [h0 [<- _]].
      now rewrite clean_header_no_comma.
Qed.


(** X14.  Whenever [extract_tables_digital] returns, its records stand, one
    to one and in order, for the camelot tables whose frame is not empty:
    same page, the rows below the first as both [raw_rows] and
    [processed_rows], the parsing report as [metadata], and a [headers]
    string from which splitting at the commas gives back the cleaned cells
    of the first row (cleaning removes the commas inside a cell). *)
Theorem extract_tables_digital_records
        (e : Main.env) (pages : list Z) (ts : list Main.digital_table) :
  snd (Main.extract_tables_digital e pages) = Ok ts ->
  Forall2 record_of_camelot
    (filter df_not_empty (camelot_found e (Main.validate_pages e pages)))
    ts.
Proof.
  unfold Main.extract_tables_digital, Main.validate_pages, camelot_found.
  destruct (filter (fun p => (1 <=? p) && (p <=? Main.page_count e)) pages)
    as [|v vs] eqn:Ev; cbn zeta; [discriminate|].
  unfold Main.call, Main.ret. cbn [Main.io_bind app].
  destruct (Main.read_pdf_lattice e (v :: vs)) as [|ct cts];
    cbn [Main.io_bind snd fst app]; intros H.
  - destruct (digital_loop_spec (Main.read_pdf_stream e (v :: vs)) [])
      as [ts' [E Hts]].
    rewrite E in H. injection H as <-. exact Hts.
  - destruct (digital_loop_spec (ct :: cts) []) as [ts' [E Hts]].
    rewrite E in H. injection H as <-. exact Hts.
Qed.

Lemma extract_tables_digital_records_witness :
  Forall2 record_of_camelot
    (filter df_not_empty
       (camelot_found Runs.two_digital
          (Main.validate_pages Runs.two_digital [1; 2; 5])))
    [Runs.stream_record].
Proof.
  apply (extract_tables_digital_records Runs.two_digital [1; 2; 5]
           [Runs.stream_record]).
  vm_compute. reflexivity.
Defined.

(** The OCR loop skips exactly the pages [validate_pages] drops. *)
Lemma scanned_skip (e : Main.env) (p : Z) :
  (p <? 1) || (Main.page_count e <? p)
  = negb ((1 <=? p) && (p <=? Main.page_count e)).
Proof.
  destruct (p <? 1) eqn:E1, (Main.page_count e <? p) eqn:E2,
    (1 <=? p) eqn:E3, (p <=? Main.page_count e) eqn:E4; try reflexivity;
    rewrite ?Z.ltb_lt, ?Z.ltb_ge, ?Z.leb_le, ?Z.leb_gt in *; lia.
Qed.

(** The run of the OCR loop: its calls and its records, page by page. *)
Lemma scanned_loop_run (e : Main.env) (pages : list Z) :
  forall acc,
    Main.scanned_loop e pages acc
    = (flat_map (page_events e) (Main.validate_pages e pages),
       Ok (acc ++ List.map
                    (fun p => Main.structure p (page_lines e p)
                                (Main.paddle e (p - 1)))
                    (Main.validate_pages e pages))).
Proof.
  unfold Main.validate_pages.
  induction pages as [|p pages IH]; intros acc;
    cbn [Main.scanned_loop filter].
  - cbn. now rewrite app_nil_r.
  - rewrite scanned_skip.
    destruct ((1 <=? p) && (p <=? Main.page_count e)); cbn [negb];
      [|apply IH].
    unfold Main.call, Main.ret, page_events, page_lines.
    cbn [Main.io_bind flat_map List.map app].
    destruct (Main.paddle_lines (Main.paddle e (p - 1))) as [|l ls];
      cbn [Main.io_bind app]; rewrite IH; cbn [app];
      rewrite <- app_assoc; reflexivity.
Qed.


Lemma validate_pages_in_range (e : Main.env) (pages : list Z) (p : Z) :
  In p (Main.validate_pages e pages) -> 1 <= p <= Main.page_count e.
Proof.
  unfold Main.validate_pages. intros H. apply filter_In in H as [_ H].
  apply andb_prop in H as [H1 H2]. apply Z.leb_le in H1, H2. lia.
Qed.

(** X16.  The only library calls of [extract_tables_scanned] are OCR calls
    on page indices of the document ([0 <= n < page_count]), and Tesseract
    is called only on a page on which PaddleOCR read no line. *)
Theorem extract_tables_scanned_calls (e : Main.env) (pages : list Z) :
  Forall (ocr_call_in_range e) (fst (Main.extract_tables_scanned e pages)).
Proof.
  unfold Main.extract_tables_scanned. rewrite scanned_loop_run. cbn [fst].
  apply Forall_forall. intros ev Hev.
  apply in_flat_map in Hev as [p [Hp Hev]].
  apply validate_pages_in_range in Hp.
  unfold page_events in Hev. destruct Hev as [<- | Hev]; [cbn; lia|].
  destruct (Main.paddle_lines (Main.paddle e (p - 1))) eqn:E;
    [|contradiction].
  destruct Hev as [<- | []]. cbn. split; [lia | exact E].
Qed.

Lemma lstrip_no_space (s : pystr) :
  forallb (fun c => negb (isspace c)) s = true -> lstrip s = s.
Proof.
  destruct s as [|c s]; [reflexivity|]. cbn [forallb lstrip].
  intros H. apply andb_prop in H as [Hc _].
  apply negb_true_iff in Hc. now rewrite Hc.
Qed.

Lemma forallb_rev {A : Type} (f : A -> bool) (l : list A) :
  forallb f (rev l) = forallb f l.
Proof.
  induction l as [|a l IH]; [reflexivity|].
  cbn [rev forallb]. rewrite forallb_app, IH. cbn. 
  rewrite andb_true_r. apply andb_comm.
Qed.

(** A string without white space is its own [strip]. *)
Lemma strip_no_space (s : pystr) :
  forallb (fun c => negb (isspace c)) s = true -> strip s = s.
Proof.
  intros H. unfold strip, rstrip. rewrite (lstrip_no_space s H).
  rewrite lstrip_no_space, rev_involutive; [reflexivity|].
  now rewrite forallb_rev.
Qed.

(** The pieces of [s.split()] hold no white space. *)
Lemma split_from_no_space (s : pystr) :
  forall cur,
    forallb (fun c => negb (isspace c)) cur = true ->
    Forall (fun tok => forallb (fun c => negb (isspace c)) tok = true)
           (split_from cur s).
Proof.
  induction s as [|c s IH]; intros cur Hcur; cbn [split_from].
  - destruct cur; constructor; [|constructor]. now rewrite forallb_rev.
  - destruct (isspace c) eqn:Ec.
    + destruct cur as [|c0 cur]; [now apply IH|].
      constructor; [now rewrite forallb_rev | now apply IH].
    + apply IH. cbn [forallb]. now rewrite Ec, Hcur.
Qed.

Lemma map_strip_split (s : pystr) : List.map strip (split s) = split s.
Proof.
  unfold split.
  pose proof (split_from_no_space s [] eq_refl) as H.
  induction H as [|tok toks Htok _ IH]; [reflexivity|].
  cbn [List.map]. now rewrite (strip_no_space tok Htok), IH.
Qed.

(** The headers of a record are the words of its title. *)
Lemma structure_headers (p : Z) (lines : list pystr) (d : Main.ocr_data) :
  Main.ocr_headers (Main.structure p lines d)
  = split (Main.ocr_title (Main.structure p lines d)).
Proof.
  unfold Main.structure. cbn [Main.ocr_headers Main.ocr_title].
  destruct lines as [|l ls]; [reflexivity|].
  cbn [List.map]. apply map_strip_split.
Qed.

(** X17.  In every record of [extract_tables_scanned], the headers are the
    white-space separated words of the title (the first text line of the
    page), and no data row has more cells than there are headers. *)
Theorem extract_tables_scanned_records
        (e : Main.env) (pages : list Z) (ts : list Main.scanned_table) :
  snd (Main.extract_tables_scanned e pages) = Ok ts ->
  Forall (fun t =>
            Main.ocr_headers t = split (Main.ocr_title t)
            /\ Forall (fun row => (List.length row
                                   <= List.length (Main.ocr_headers t))%nat)
                      (Main.ocr_rows t))
         ts.
Proof.
  unfold Main.extract_tables_scanned. rewrite scanned_loop_run. cbn [snd app].
  intros H. injection H as <-.
  apply Forall_forall. intros t Ht. apply in_map_iff in Ht as [p [<- _]].
  split; [apply structure_headers | apply structure_rows_truncated].
Qed.

Lemma extract_tables_scanned_records_witness :
  Forall (fun t =>
            Main.ocr_headers t = split (Main.ocr_title t)
            /\ Forall (fun row => (List.length row
                                   <= List.length (Main.ocr_headers t))%nat)
                      (Main.ocr_rows t))
         [Runs.short_row_record].
Proof.
  apply (extract_tables_scanned_records Samples.short_row_pdf [1]
           [Runs.short_row_record]).
  vm_compute. reflexivity.
Defined.

(** X18.  The label of a record does not say which engine read its lines:
    on a page of the document where PaddleOCR returns a list without any
    text and Tesseract reads at least one line, the record is built from
    the Tesseract lines and labelled [PaddleOCR]. *)
Theorem extract_tables_scanned_label
        (e : Main.env) (p : Z) (blocks : list (option (list pystr)))
        (l : pystr) (ls : list pystr) :
  1 <= p <= Main.page_count e ->
  Main.paddle e (p - 1) = Some blocks ->
  Main.paddle_lines (Some blocks) = [] ->
  Main.tesseract_lines (Main.image_to_string e (p - 1)) = l :: ls ->
  exists t,
    Main.extract_tables_scanned e [p]
    = ([Main.EvPaddle (p - 1); Main.EvTesseract (p - 1)], Ok [t])
    /\ Main.ocr_title t = l
    /\ Main.ocr_metadata t = Main.PaddleOCR.
Proof.
  intros Hp Hpaddle Hnone Htess.
  unfold Main.extract_tables_scanned. rewrite scanned_loop_run.
  unfold Main.validate_pages. cbn [filter].
  assert (Hin : (1 <=? p) && (p <=? Main.page_count e) = true).
  { apply andb_true_intro. split; apply Z.leb_le; lia. }
  rewrite Hin. unfold page_events, page_lines.
  cbn [flat_map List.map app]. rewrite Hpaddle, Hnone, Htess.
  eexists. split; [reflexivity|]. now split.
Qed.

Lemma extract_tables_scanned_label_witness :
  exists t,
    Main.extract_tables_scanned Runs.two_scans [1]
    = ([Main.EvPaddle (1 - 1); Main.EvTesseract (1 - 1)], Ok [t])
    /\ Main.ocr_title t = ustr "Name Amount"
    /\ Main.ocr_metadata t = Main.PaddleOCR.
Proof.
  apply (extract_tables_scanned_label Runs.two_scans 1 [None]
           (ustr "Name Amount") [ustr "Rent 900"]).
  - cbn. lia.
  - reflexivity.
  - reflexivity.
  - vm_compute. reflexivity.
Defined.

(* ===================================================================== *)
(** ** process_pdf of src/main.py *)
(* ===================================================================== *)

Lemma io_bind_run {A C : Type} (tr : list Main.event) (a : A)
      (k : A -> Main.io C) :
  Main.io_bind (tr, Ok a) k = (tr ++ fst (k a), snd (k a)).
Proof. cbn. now destruct (k a). Qed.

Lemma io_bind_forall {A C : Type} (P : Main.event -> Prop)
      (m : Main.io A) (k : A -> Main.io C) :
  Forall P (fst m) -> (forall a, Forall P (fst (k a))) ->
  Forall P (fst (Main.io_bind m k)).
Proof.
  intros Hm Hk. destruct m as [tr [a|x]]; [|exact Hm].
  rewrite io_bind_run. cbn [fst] in *. apply Forall_app. auto.
Qed.

Lemma is_scanned_run (e : Main.env) (n : Z) :
  Main.is_scanned e n
  = ([Main.EvGetText n],
     match Main.get_text e n with
     | Ok text => Ok (Z.of_nat (List.length (strip text)) <? 20)
     | Raise x => Raise x
     end).
Proof.
  unfold Main.is_scanned, Main.call, Main.ret.
  destruct (Main.get_text e n); reflexivity.
Qed.

Lemma extract_tables_scanned_no_housekeeping (e : Main.env) (pages : list Z) :
  Forall (fun ev => housekeeping ev = false)
         (fst (Main.extract_tables_scanned e pages)).
Proof.
  unfold Main.extract_tables_scanned. rewrite scanned_loop_run. cbn [fst].
  apply Forall_forall. intros ev Hev.
  apply in_flat_map in Hev as [p [_ Hev]]. unfold page_events in Hev.
  destruct Hev as [<- | Hev]; [reflexivity|].
  destruct (Main.paddle_lines (Main.paddle e (p - 1)));
    [destruct Hev as [<- | []]; reflexivity | contradiction].
Qed.

Lemma extract_tables_digital_no_housekeeping (e : Main.env) (pages : list Z) :
  Forall (fun ev => housekeeping ev = false)
         (fst (Main.extract_tables_digital e pages)).
Proof.
  unfold Main.extract_tables_digital.
  destruct (filter _ pages); [constructor|].
  unfold Main.call, Main.ret. cbn [Main.io_bind app].
  destruct (Main.read_pdf_lattice e (z :: l)); cbn; repeat constructor.
Qed.

(** X19.  [process_pdf] creates its temporary directory first and removes
    it last on every path, whether it returns or raises, and does neither
    in between. *)
Theorem process_pdf_cleans_up (e : Main.env) (pages : list Z) (fmt : pystr) :
  exists mid,
    fst (Main.process_pdf e pages fmt)
    = Main.EvMkdtemp :: mid ++ [Main.EvRmtree]
    /\ Forall (fun ev => housekeeping ev = false) mid.
Proof.
  unfold Main.process_pdf. rewrite io_bind_call_ok. cbn [fst Main.finally].
  eexists. split; [reflexivity|].
  apply io_bind_forall.
  { destruct pages; constructor. }
  intros p0. apply io_bind_forall.
  { rewrite is_scanned_run. repeat constructor. }
  intros scanned. apply io_bind_forall.
  { destruct scanned; apply io_bind_forall;
      try (intros; constructor).
    - apply extract_tables_scanned_no_housekeeping.
    - apply extract_tables_digital_no_housekeeping. }
  intros ts. apply io_bind_forall.
  { destruct pages; constructor. }
  intros _. repeat constructor.
Qed.

(** X20.  If the text layer of page [pages[0]] cannot be read, [process_pdf]
    raises that error after this one library call: no extraction, no
    output file. *)
Theorem process_pdf_unreadable_first_page
        (e : Main.env) (p : Z) (ps : list Z) (fmt : pystr) (x : exn) :
  Main.get_text e (p - 1) = Raise x ->
  Main.process_pdf e (p :: ps) fmt
  = ([Main.EvMkdtemp; Main.EvGetText (p - 1); Main.EvRmtree], Raise x).
Proof.
  intros Hget. unfold Main.process_pdf.
  rewrite io_bind_call_ok, io_bind_ret, is_scanned_run, Hget. reflexivity.
Qed.




(** X24.  A page whose text layer is only white space is classified as
    scanned. *)
Theorem is_scanned_blank_page (e : Main.env) (n : Z) (text : pystr) :
  Main.get_text e n = Ok text ->
  forallb isspace text = true ->
  Main.is_scanned e n = ([Main.EvGetText n], Ok true).
Proof.
  intros Hget Hblank.
  now rewrite is_scanned_run, Hget, (strip_all_space text Hblank).
Qed.

Lemma parse_pages_increasing_witness :
  StronglySorted Z.lt [1; 2; 3; 5].
Proof.
  apply (parse_pages_increasing (B := AsciiBuiltins.builtins)
           (ustr "5, 2-3 ,1-2")).
  vm_compute. reflexivity.
Defined.

Lemma parse_pages_members_witness :
  In 4 [2; 3; 4; 5; 9]
  <-> exists part,
        In part (split_on 44 (ustr "9,4-2,2-5"))
        /\ denotes (B := AsciiBuiltins.builtins) part 4.
Proof.
  apply (parse_pages_members (B := AsciiBuiltins.builtins)
           (ustr "9,4-2,2-5")).
  vm_compute. reflexivity.
Defined.

Lemma parse_pages_comma_witness :
  exists r,
    Main.parse_pages (B := AsciiBuiltins.builtins)
      (ustr "2-4" ++ 44%N :: ustr "3,1") = Ok r
    /\ forall p, In p r <-> In p [2; 3; 4] \/ In p [1; 3].
Proof.
  apply (parse_pages_comma (B := AsciiBuiltins.builtins)
           (ustr "2-4") (ustr "3,1"));
    vm_compute; reflexivity.
Defined.

Lemma parse_pages_raises_witness :
  Main.parse_pages (B := AsciiBuiltins.builtins) (ustr "1-2-3")
  = Raise ValueError
  /\ ValueError = ValueError.
Proof.
  split; [vm_compute; reflexivity|].
  apply (parse_pages_raises (B := AsciiBuiltins.builtins) (ustr "1-2-3")).
  vm_compute. reflexivity.
Defined.

Lemma process_pdf_unreadable_first_page_witness :
  Main.process_pdf Runs.unreadable [1; 2] (ustr "json")
  = ([Main.EvMkdtemp; Main.EvGetText (1 - 1); Main.EvRmtree],
     Raise LibraryError).
Proof.
  apply (process_pdf_unreadable_first_page Runs.unreadable 1 [2]).
  reflexivity.
Defined.




Lemma is_scanned_blank_page_witness :
  Main.is_scanned Runs.two_scans 0 = ([Main.EvGetText 0], Ok true).
Proof.
  apply (is_scanned_blank_page Runs.two_scans 0 (ustr "  "));
    reflexivity.
Defined.

(* ===================================================================== *)
(** ** The API client and the script of src/scan_pdf.py *)
(* ===================================================================== *)

Lemma checked_field_done (j : json) (key : pystr) (v : json) :
  ScanPdf.checked_field j key = ScanPdf.Done v
  <-> exists d, j = JDict d
                /\ py_truthy (dict_get d ScanPdf.k_error JNull) = false
                /\ lookup key d = Some v.
Proof.
  unfold ScanPdf.checked_field, ScanPdf.subscript. split.
  - destruct j as [| | | | | |d]; try discriminate. cbn [py_get].
    destruct (py_truthy (dict_get d ScanPdf.k_error JNull)) eqn:E;
      [discriminate|].
    destruct (lookup key d) eqn:Ek; [|discriminate].
    intros H. injection H as <-. now exists d.
  - intros [d [-> [Herr Hkey]]]. cbn [py_get]. now rewrite Herr, Hkey.
Qed.

(** X25.  [extract_to_json2] returns a body exactly when the reply decodes
    to a mapping whose [error] is absent or falsy and which has a [body];
    it then returns that [body], having sent one request.  In particular a
    reply with a truthy [error] never yields a body, whatever else it
    holds. *)
Theorem extract_to_json2_returns_iff
        (w : ScanPdf.world) (url body : json) :
  snd (ScanPdf.extract_to_json2 w url) = ScanPdf.Done body
  <-> good_reply (ScanPdf.post_json2 w url) ScanPdf.k_body body.
Proof.
  unfold ScanPdf.extract_to_json2, good_reply.
  destruct (ScanPdf.post_json2 w url) as [| |j]; cbn [snd].
  - split; [discriminate | intros [d [H _]]; discriminate].
  - split; [discriminate | intros [d [H _]]; discriminate].
  - rewrite checked_field_done. split.
    + intros [d [-> H]]. now exists d.
    + intros [d [H H']]. injection H as ->. now exists d.
Qed.



Lemma run_bind_done {A C : Type} (m : ScanPdf.run A) (k : A -> ScanPdf.run C)
      (tr : list ScanPdf.call) (c : C) :
  ScanPdf.run_bind m k = (tr, ScanPdf.Done c) ->
  exists a tr1 tr2,
    m = (tr1, ScanPdf.Done a) /\ k a = (tr2, ScanPdf.Done c)
    /\ tr = tr1 ++ tr2.
Proof.
  destruct m as [tr1 [a|e]]; cbn [ScanPdf.run_bind]; [|discriminate].
  destruct (k a) as [tr2 r] eqn:Ek. intros H. injection H as <- ->.
  now exists a, tr1, tr2.
Qed.

Lemma run_bind_ok {A C : Type} (tr : list ScanPdf.call) (a : A)
      (k : A -> ScanPdf.run C) :
  ScanPdf.run_bind (tr, ScanPdf.Done a) k = (tr ++ fst (k a), snd (k a)).
Proof. cbn. now destruct (k a). Qed.


Lemma upload_file_calls (w : ScanPdf.world) (path : pystr) :
  forallb not_dump (fst (ScanPdf.upload_file w path)) = true
  /\ forall v, snd (ScanPdf.upload_file w path) = ScanPdf.Done v ->
               fst (ScanPdf.upload_file w path) = [ScanPdf.CallUpload path].
Proof.
  unfold ScanPdf.upload_file.
  destruct (ScanPdf.open_rb w path); [|split; [reflexivity | discriminate]].
  destruct (ScanPdf.post_upload w path); split; try reflexivity; discriminate.
Qed.

Lemma make_searchable_calls (w : ScanPdf.world) (url : json) (name : pystr) :
  fst (ScanPdf.make_searchable w url name)
  = [ScanPdf.CallMakeSearchable url name].
Proof.
  unfold ScanPdf.make_searchable.
  now destruct (ScanPdf.post_makesearchable w url name).
Qed.

Lemma download_file_calls (w : ScanPdf.world) (url : json) (dest : pystr) :
  forallb not_dump (fst (ScanPdf.download_file w url dest)) = true
  /\ forall u, snd (ScanPdf.download_file w url dest) = ScanPdf.Done u ->
               fst (ScanPdf.download_file w url dest)
               = [ScanPdf.CallGet url; ScanPdf.CallSave dest].
Proof.
  unfold ScanPdf.download_file.
  destruct (ScanPdf.get_ok w url), (ScanPdf.open_wb w dest);
    split; try reflexivity; discriminate.
Qed.

Lemma extract_to_json2_calls (w : ScanPdf.world) (url : json) :
  fst (ScanPdf.extract_to_json2 w url) = [ScanPdf.CallJson2 url].
Proof.
  unfold ScanPdf.extract_to_json2. now destruct (ScanPdf.post_json2 w url).
Qed.

Section Script.
Context {B : PyBuiltins}.


Lemma pipeline_done (w : ScanPdf.world) (inp : pystr)
      (tr : list ScanPdf.call) (u : unit) :
  ScanPdf.pipeline w inp = (tr, ScanPdf.Done u) ->
  exists up su body ts,
    let name := ScanPdf.stem w inp ++ ustr "_searchable.pdf" in
    snd (ScanPdf.upload_file w inp) = ScanPdf.Done up
    /\ snd (ScanPdf.make_searchable w up name) = ScanPdf.Done su
    /\ snd (ScanPdf.download_file w su name) = ScanPdf.Done tt
    /\ snd (ScanPdf.extract_to_json2 w su) = ScanPdf.Done body
    /\ ScanPdf.parse_json2_tables body = Ok ts
    /\ tr = [ScanPdf.CallUpload inp;
             ScanPdf.CallMakeSearchable up name;
             ScanPdf.CallGet su; ScanPdf.CallSave name;
             ScanPdf.CallJson2 su;
             ScanPdf.CallDump ScanPdf.parsed_tables_json ts].
Proof.
  unfold ScanPdf.pipeline. intros H.
  apply run_bind_done in H as [up [t1 [r1 [E1 [H ->]]]]].
  apply run_bind_done in H as [su [t2 [r2 [E2 [H ->]]]]].
  apply run_bind_done in H as [[] [t3 [r3 [E3 [H ->]]]]].
  apply run_bind_done in H as [body [t4 [r4 [E4 [H ->]]]]].
  apply run_bind_done in H as [ts [t5 [r5 [E5 [H ->]]]]].
  exists up, su, body, ts. cbn zeta.
  pose proof (proj2 (upload_file_calls w inp) up) as C1.
  pose proof (make_searchable_calls w up
                (ScanPdf.stem w inp ++ ustr "_searchable.pdf")) as C2.
  pose proof (proj2 (download_file_calls w su
                (ScanPdf.stem w inp ++ ustr "_searchable.pdf")) tt) as C3.
  pose proof (extract_to_json2_calls w su) as C4.
  rewrite E1 in *. rewrite E2 in *. rewrite E3 in *. rewrite E4 in *.
  cbn [fst snd] in *.
  rewrite (C1 eq_refl), C2, (C3 eq_refl), C4.
  destruct (ScanPdf.parse_json2_tables body) as [ts'|] eqn:Ep;
    [|discriminate].
  injection E5 as <- <-.
  destruct (ScanPdf.open_w w ScanPdf.parsed_tables_json); [|discriminate].
  injection H as <-. repeat split; reflexivity.
Qed.

(** X27.  If the script ends normally, every step succeeded and it made
    exactly six calls, in this order: the upload of the input file, the OCR
    request on the uploaded URL, the download and the save of the
    searchable PDF, the JSON2 request on the searchable URL, and the write
    of [parsed_tables.json] with the records [parse_json2_tables] returns
    for the body of the JSON2 reply. *)
Theorem script_returned (w : ScanPdf.world) (argv : list pystr) :
  snd (ScanPdf.script w argv) = ScanPdf.Returned ->
  exists a0 inp up su body ts,
    let name := ScanPdf.stem w inp ++ ustr "_searchable.pdf" in
    argv = [a0; inp]
    /\ snd (ScanPdf.upload_file w inp) = ScanPdf.Done up
    /\ snd (ScanPdf.make_searchable w up name) = ScanPdf.Done su
    /\ snd (ScanPdf.extract_to_json2 w su) = ScanPdf.Done body
    /\ ScanPdf.parse_json2_tables body = Ok ts
    /\ fst (ScanPdf.script w argv)
       = [ScanPdf.CallUpload inp;
          ScanPdf.CallMakeSearchable up name;
          ScanPdf.CallGet su; ScanPdf.CallSave name;
          ScanPdf.CallJson2 su;
          ScanPdf.CallDump ScanPdf.parsed_tables_json ts].
Proof.
  unfold ScanPdf.script, ScanPdf.main.
  destruct (ScanPdf.api_key w); [|discriminate].
  destruct argv as [|a0 [|inp [|x argv]]]; try discriminate.
  destruct (ScanPdf.path_exists w inp); [|discriminate].
  destruct (ScanPdf.pipeline w inp) as [tr [[]|e]] eqn:Ep.
  - intros _.
    destruct (pipeline_done w inp tr tt Ep)
      as [up [su [body [ts [H1 [H2 [_ [H4 [H5 ->]]]]]]]]].
    exists a0, inp, up, su, body, ts. cbn zeta. repeat split; assumption.
  - destruct e; discriminate.
Qed.


(** X29.  When the four requests succeed and [parse_json2_tables] raises on
    the body of the JSON2 reply, the script does not exit with status 1
    through its handler: the exception is not a [RuntimeError], so it
    escapes [main] after the five calls, and nothing is written. *)
Theorem script_parse_failure
        (w : ScanPdf.world) (a0 inp : pystr) (up su body : json) (e : exn) :
  ScanPdf.api_key w = true ->
  ScanPdf.path_exists w inp = true ->
  snd (ScanPdf.upload_file w inp) = ScanPdf.Done up ->
  snd (ScanPdf.make_searchable w up
         (ScanPdf.stem w inp ++ ustr "_searchable.pdf")) = ScanPdf.Done su ->
  snd (ScanPdf.download_file w su
         (ScanPdf.stem w inp ++ ustr "_searchable.pdf")) = ScanPdf.Done tt ->
  snd (ScanPdf.extract_to_json2 w su) = ScanPdf.Done body ->
  ScanPdf.parse_json2_tables body = Raise e ->
  ScanPdf.script w [a0; inp]
  = ([ScanPdf.CallUpload inp;
      ScanPdf.CallMakeSearchable up
        (ScanPdf.stem w inp ++ ustr "_searchable.pdf");
      ScanPdf.CallGet su;
      ScanPdf.CallSave (ScanPdf.stem w inp ++ ustr "_searchable.pdf");
      ScanPdf.CallJson2 su],
     ScanPdf.Crashed (ScanPdf.Python e)).
Proof.
  intros Hkey Hexists H1 H2 H3 H4 H5.
  unfold ScanPdf.script, ScanPdf.main. rewrite Hkey, Hexists.
  unfold ScanPdf.pipeline.
  pose proof (proj2 (upload_file_calls w inp) up H1) as C1.
  pose proof (make_searchable_calls w up
                (ScanPdf.stem w inp ++ ustr "_searchable.pdf")) as C2.
  pose proof (proj2 (download_file_calls w su
                (ScanPdf.stem w inp ++ ustr "_searchable.pdf")) tt H3) as C3.
  pose proof (extract_to_json2_calls w su) as C4.
  destruct (ScanPdf.upload_file w inp) as [t1 r1].
  cbn [fst snd] in *. subst. rewrite run_bind_ok.
  destruct (ScanPdf.make_searchable w up _) as [t2 r2].
  cbn [fst snd] in *. subst. rewrite run_bind_ok.
  destruct (ScanPdf.download_file w su _) as [t3 r3].
  cbn [fst snd] in *. subst. rewrite run_bind_ok.
  destruct (ScanPdf.extract_to_json2 w su) as [t4 r4].
  cbn [fst snd] in *. subst. rewrite run_bind_ok.
  rewrite H5. reflexivity.
Qed.

End Script.


Lemma script_returned_witness :
  exists a0 inp up su body ts,
    let name := ScanPdf.stem (Api.online Samples.spec_example) inp
                ++ ustr "_searchable.pdf" in
    Api.argv = [a0; inp]
    /\ snd (ScanPdf.upload_file (Api.online Samples.spec_example) inp)
       = ScanPdf.Done up
    /\ snd (ScanPdf.make_searchable (Api.online Samples.spec_example) up name)
       = ScanPdf.Done su
    /\ snd (ScanPdf.extract_to_json2 (Api.online Samples.spec_example) su)
       = ScanPdf.Done body
    /\ ScanPdf.parse_json2_tables (B := AsciiBuiltins.builtins) body = Ok ts
    /\ fst (ScanPdf.script (B := AsciiBuiltins.builtins)
              (Api.online Samples.spec_example) Api.argv)
       = [ScanPdf.CallUpload inp;
          ScanPdf.CallMakeSearchable up name;
          ScanPdf.CallGet su; ScanPdf.CallSave name;
          ScanPdf.CallJson2 su;
          ScanPdf.CallDump ScanPdf.parsed_tables_json ts].
Proof.
  apply (script_returned (B := AsciiBuiltins.builtins)
           (Api.online Samples.spec_example) Api.argv).
  vm_compute. reflexivity.
Defined.


Lemma script_parse_failure_witness :
  ScanPdf.script (B := AsciiBuiltins.builtins)
    (Api.online Samples.numeric_column) Api.argv
  = ([ScanPdf.CallUpload (ustr "scan.pdf");
      ScanPdf.CallMakeSearchable (JStr (ustr "https://files/up"))
        (ustr "scan" ++ ustr "_searchable.pdf");
      ScanPdf.CallGet (JStr (ustr "https://files/ocr"));
      ScanPdf.CallSave (ustr "scan" ++ ustr "_searchable.pdf");
      ScanPdf.CallJson2 (JStr (ustr "https://files/ocr"))],
     ScanPdf.Crashed (ScanPdf.Python TypeError)).
Proof.
  apply (script_parse_failure (B := AsciiBuiltins.builtins)
           (Api.online Samples.numeric_column)
           (ustr "scan_pdf.py") (ustr "scan.pdf")
           (JStr (ustr "https://files/up")) (JStr (ustr "https://files/ocr"))
           Samples.numeric_column TypeError);
    reflexivity.
Defined.
